(** * Course platform: a shallow embedding of [LABA/course_platform.py]

    The development follows the Python module top to bottom: the exception
    class, [Course] with its three subclasses, the dictionary codec
    ([to_dict] / [from_dict]) and the [Platform] aggregate with ranking,
    removal and JSON loading.  Python objects become records, methods that
    mutate [self] become functions returning the outcome together with the
    new object, and raised exceptions become the [Raise] outcome. *)

From stdpp Require Import base option list gmap strings sorting.
From Stdlib Require Import Ascii ZArith QArith Lia.

#[local] Set Warnings "-register-all".

Open Scope Z_scope.

(** ** Python outcomes *)

Module Py.

(** The exception classes the module can raise or let through.
    [CourseFullError] is the class declared in the source; the others are
    built-ins.  [IllTyped] is not a Python exception: it marks a record
    whose value has a type that the annotated constructor signatures
    ([str], [int], [List[str]]) exclude.  Python stores such a value
    unchecked; the typed [Course] record below cannot hold it, so the
    embedding stops there. *)
Inductive exn : Type :=
| CourseFullError (msg : string)
| ValueError (msg : string)
| KeyError (key : string)
| FileNotFoundError (filename : string)
| UnicodeDecodeError
| JSONDecodeError
| TypeError
| AttributeError
| IllTyped (field : string).

Inductive res (A : Type) : Type :=
| Ok (a : A)
| Raise (e : exn).
Arguments Ok {A} a.
Arguments Raise {A} e.

Definition bind {A B} (m : res A) (k : A → res B) : res B :=
  match m with
  | Ok a => k a
  | Raise e => Raise e
  end.

(** [[f(x) for x in xs]]: evaluated left to right, the first exception
    aborts the comprehension. *)
Fixpoint comprehension {A B} (f : A → res B) (xs : list A) : res (list B) :=
  match xs with
  | [] => Ok []
  | x :: xs' =>
      bind (f x) (λ y, bind (comprehension f xs') (λ ys, Ok (y :: ys)))
  end.

End Py.

Import Py.

#[global] Instance res_ret : MRet res := @Ok.
#[global] Instance res_bind : MBind res := λ A B k m, Py.bind m k.
#[global] Instance res_fmap : FMap res :=
  λ A B f m, Py.bind m (λ a, Ok (f a)).

(** ** JSON values

    What [json.load] hands back (and what a [dict] literal may hold):
    [None], booleans, integers, strings, lists and string-keyed
    dictionaries.  JSON numbers with a fraction are left out. *)

Inductive value : Type :=
| VNone
| VBool (b : bool)
| VInt (n : Z)
| VStr (s : string)
| VList (l : list value)
| VDict (d : gmap string value).

Abbreviation dict := (gmap string value).

(** [data[k]] *)
Definition getitem (data : dict) (k : string) : res value :=
  match data !! k with
  | Some v => Ok v
  | None => Raise (KeyError k)
  end.

(** [data.get(k, dflt)] *)
Definition get (data : dict) (k : string) (dflt : value) : value :=
  match data !! k with
  | Some v => v
  | None => dflt
  end.

(** [v == s] for a string literal [s]; [v] is [None] when the key was
    missing ([data.get(k)]). *)
Definition eq_str (v : option value) (s : string) : bool :=
  match v with
  | Some (VStr s') => bool_decide (s' = s)
  | _ => false
  end.

Definition as_str (field : string) (v : value) : res string :=
  match v with
  | VStr s => Ok s
  | _ => Raise (IllTyped field)
  end.

Definition as_int (field : string) (v : value) : res Z :=
  match v with
  | VInt n => Ok n
  | _ => Raise (IllTyped field)
  end.

Definition as_str_list (field : string) (v : value) : res (list string) :=
  match v with
  | VList l => comprehension (as_str field) l
  | _ => Raise (IllTyped field)
  end.

(** ** Course and its subclasses *)

(** The class of an object together with the one attribute the subclass
    adds ([__language], [__software], [__field]). *)
Inductive course_class : Type :=
| BaseCourse
| ProgrammingCourse (language : string)
| DesignCourse (software : string)
| ScienceCourse (field : string).

Record Course : Type := mkCourse {
  cls : course_class;
  title : string;
  instructor : string;
  start_date : string;
  end_date : string;
  max_students : Z;
  students : list string
}.

(** [self.__class__.__name__] *)
Definition class_name (k : course_class) : string :=
  match k with
  | BaseCourse => "Course"
  | ProgrammingCourse _ => "ProgrammingCourse"
  | DesignCourse _ => "DesignCourse"
  | ScienceCourse _ => "ScienceCourse"
  end.

(** The discriminating attribute, when the class has one. *)
Definition class_attr (k : course_class) : option (string * string) :=
  match k with
  | BaseCourse => None
  | ProgrammingCourse l => Some ("language", l)
  | DesignCourse s => Some ("software", s)
  | ScienceCourse f => Some ("field", f)
  end.

(** [__init__] of the four classes: every argument is stored as given and
    the student list starts empty. *)
Definition Course_init (title instructor start_date end_date : string)
    (max_students : Z) : Course :=
  mkCourse BaseCourse title instructor start_date end_date max_students [].

Definition ProgrammingCourse_init (title instructor start_date end_date : string)
    (max_students : Z) (language : string) : Course :=
  mkCourse (ProgrammingCourse language)
    title instructor start_date end_date max_students [].

Definition DesignCourse_init (title instructor start_date end_date : string)
    (max_students : Z) (software : string) : Course :=
  mkCourse (DesignCourse software)
    title instructor start_date end_date max_students [].

Definition ScienceCourse_init (title instructor start_date end_date : string)
    (max_students : Z) (field : string) : Course :=
  mkCourse (ScienceCourse field)
    title instructor start_date end_date max_students [].

(** [len(xs)] as a Python integer. *)
Definition len {A} (xs : list A) : Z := Z.of_nat (length xs).

Definition set_students (c : Course) (l : list string) : Course :=
  mkCourse (cls c) (title c) (instructor c) (start_date c) (end_date c)
    (max_students c) l.

(** [add_student]: the outcome of the call and the object afterwards. *)
Definition add_student (c : Course) (name : string) : res () * Course :=
  if len (students c) >=? max_students c then
    (Raise (CourseFullError ("Course '" +:+ title c +:+ "' is full.")), c)
  else
    (Ok (), set_students c (students c ++ [name])).

(** A caller that issues one call per name and carries on after a refusal;
    the outcomes are collected in call order. *)
Fixpoint add_students (c : Course) (names : list string)
    : list (res ()) * Course :=
  match names with
  | [] => ([], c)
  | name :: rest =>
      let '(r, c') := add_student c name in
      let '(rs, c'') := add_students c' rest in
      (r :: rs, c'')
  end.

(** [completion_rate].  The Python value is a binary64 float; here it is
    the exact rational that the float approximates. *)
Definition completion_rate (c : Course) : Q :=
  if max_students c =? 0 then 0%Q
  else (inject_Z (len (students c)) / inject_Z (max_students c) * 100)%Q.

(** ** Calendar dates

    The day arithmetic of Python's [datetime]: a date is a year, a month
    and a day of the proleptic Gregorian calendar, and its ordinal counts
    the days since 0001-01-01 (which has ordinal 1). *)

Record date : Type := mkDate { year : Z; month : Z; day : Z }.

Definition is_leap (y : Z) : bool :=
  (y mod 4 =? 0) && (negb (y mod 100 =? 0) || (y mod 400 =? 0)).

Definition days_before_year (y : Z) : Z :=
  let y1 := y - 1 in y1 * 365 + y1 / 4 - y1 / 100 + y1 / 400.

Definition days_in_month (y m : Z) : Z :=
  if m =? 2 then (if is_leap y then 29 else 28)
  else if (m =? 4) || (m =? 6) || (m =? 9) || (m =? 11) then 30
  else 31.

Definition days_in_year (y : Z) : Z := if is_leap y then 366 else 365.

(** Days of year [y] that precede the first day of month [m]. *)
Definition days_before_month (y m : Z) : Z :=
  foldr (λ k acc, days_in_month y (Z.of_nat k) + acc) 0
        (seq 1 (Z.to_nat m - 1)).

Definition toordinal (d : date) : Z :=
  days_before_year (year d) + days_before_month (year d) (month d) + day d.

(** A date that [datetime] accepts. *)
Definition valid_date (d : date) : Prop :=
  1 ≤ year d ≤ 9999 ∧ 1 ≤ month d ≤ 12 ∧
  1 ≤ day d ≤ days_in_month (year d) (month d).

(** Calendar order. *)
Definition date_lt (a b : date) : Prop :=
  year a < year b ∨
  (year a = year b ∧ (month a < month b ∨
                      (month a = month b ∧ day a < day b))).

Section Duration.

(** [datetime.strptime(s, "%Y-%m-%d")] is library code: [None] stands
    for the [ValueError] it raises on a string it does not accept. *)
Variable strptime : string → option date.

Definition parse (s : string) : res date :=
  match strptime s with
  | Some d => Ok d
  | None => Raise (ValueError "time data does not match format '%Y-%m-%d'")
  end.

(** [try: ... except ValueError as e: raise ValueError(msg) from e] *)
Definition except_ValueError {A} (body : res A) (msg : string) : res A :=
  match body with
  | Raise (ValueError _) => Raise (ValueError msg)
  | r => r
  end.

(** [(end - start).days] for two midnights is the ordinal difference. *)
Definition duration_days (c : Course) : res Z :=
  except_ValueError
    (start ← parse (start_date c);
     end_ ← parse (end_date c);
     mret (toordinal end_ - toordinal start))
    "Invalid date format. Use 'YYYY-MM-DD'.".

End Duration.

(** A strict reader of the ten-character form [YYYY-MM-DD] (ASCII digits,
    zero padded), one of the parsers [duration_days] can be run with. *)
Definition digit (a : ascii) : option Z :=
  let n := Z.of_nat (nat_of_ascii a) in
  if (48 <=? n) && (n <=? 57) then Some (n - 48) else None.

Definition iso_strptime (s : string) : option date :=
  match String.list_ascii_of_string s with
  | [y1; y2; y3; y4; h1; m1; m2; h2; d1; d2] =>
      if bool_decide (h1 = "-"%char ∧ h2 = "-"%char) then
        y1 ← digit y1; y2 ← digit y2; y3 ← digit y3; y4 ← digit y4;
        m1 ← digit m1; m2 ← digit m2; d1 ← digit d1; d2 ← digit d2;
        let d := mkDate (1000 * y1 + 100 * y2 + 10 * y3 + y4)
                        (10 * m1 + m2) (10 * d1 + d2) in
        if (1 <=? year d) && (1 <=? month d) && (month d <=? 12) &&
           (1 <=? day d) && (day d <=? days_in_month (year d) (month d))
        then Some d else None
      else None
  | _ => None
  end.

(** ** The dictionary codec *)

(** [to_dict] is defined once, in [Course]; no subclass overrides it.  The
    ["students"] entry is the object's own list. *)
Definition to_dict (c : Course) : dict :=
  list_to_map [
    ("type", VStr (class_name (cls c)));
    ("title", VStr (title c));
    ("instructor", VStr (instructor c));
    ("start_date", VStr (start_date c));
    ("end_date", VStr (end_date c));
    ("max_students", VInt (max_students c));
    ("students", VList (VStr <$> students c))
  ].

(** Calling one of the four constructors on values taken from a record:
    the five common arguments, typed as the signatures annotate them. *)
Definition call_init {A} (init : string → string → string → string → Z → A)
    (title instructor start_date end_date max_students : value) : res A :=
  t ← as_str "title" title;
  i ← as_str "instructor" instructor;
  s ← as_str "start_date" start_date;
  e ← as_str "end_date" end_date;
  m ← as_int "max_students" max_students;
  mret (init t i s e m).

Definition from_dict (data : dict) : res Course :=
  let course_type := data !! "type" in
  course ←
    (if eq_str course_type "ProgrammingCourse" then
       title ← getitem data "title";
       instructor ← getitem data "instructor";
       start_date ← getitem data "start_date";
       end_date ← getitem data "end_date";
       max_students ← getitem data "max_students";
       let language := get data "language" (VStr "") in
       init ← call_init ProgrammingCourse_init
                title instructor start_date end_date max_students;
       init <$> as_str "language" language
     else if eq_str course_type "DesignCourse" then
       title ← getitem data "title";
       instructor ← getitem data "instructor";
       start_date ← getitem data "start_date";
       end_date ← getitem data "end_date";
       max_students ← getitem data "max_students";
       let software := get data "software" (VStr "") in
       init ← call_init DesignCourse_init
                title instructor start_date end_date max_students;
       init <$> as_str "software" software
     else if eq_str course_type "ScienceCourse" then
       title ← getitem data "title";
       instructor ← getitem data "instructor";
       start_date ← getitem data "start_date";
       end_date ← getitem data "end_date";
       max_students ← getitem data "max_students";
       let field := get data "field" (VStr "") in
       init ← call_init ScienceCourse_init
                title instructor start_date end_date max_students;
       init <$> as_str "field" field
     else
       title ← getitem data "title";
       instructor ← getitem data "instructor";
       start_date ← getitem data "start_date";
       end_date ← getitem data "end_date";
       max_students ← getitem data "max_students";
       call_init Course_init
         title instructor start_date end_date max_students);
  (* course._Course__students = data.get("students", []) *)
  set_students course <$> as_str_list "students" (get data "students" (VList [])).

(** ** Platform *)

Record Platform : Type := mkPlatform {
  name : string;
  courses : list Course
}.

Definition Platform_init (name : string) : Platform := mkPlatform name [].

Definition set_courses (p : Platform) (cs : list Course) : Platform :=
  mkPlatform (name p) cs.

Definition add_course (p : Platform) (course : Course) : Platform :=
  set_courses p (courses p ++ [course]).

(** The loop of [remove_course] and [find_course]: the index of the first
    course of [cs] whose title is [t], counting from [i]. *)
Fixpoint first_index (t : string) (cs : list Course) (i : nat) : option nat :=
  match cs with
  | [] => None
  | course :: rest =>
      if bool_decide (title course = t) then Some i
      else first_index t rest (S i)
  end.

(** [remove_course]: the returned boolean and the platform afterwards;
    [delete i] is [del self.__courses[i]]. *)
Definition remove_course (p : Platform) (t : string) : bool * Platform :=
  match first_index t (courses p) 0 with
  | Some i => (true, set_courses p (delete i (courses p)))
  | None => (false, p)
  end.

Definition find_course (p : Platform) (t : string) : option Course :=
  match first_index t (courses p) 0 with
  | Some i => courses p !! i
  | None => None
  end.

Definition get_all_courses (p : Platform) : list Course := courses p.

Section Sorted.

Context {A : Type} (key : A → Z).

(** [x] enters a list that is already in descending key order, and it
    comes from before every element of that list: it goes in front of
    the first element whose key is not larger than its own. *)
Fixpoint insert_desc (x : A) (l : list A) : list A :=
  match l with
  | [] => [x]
  | y :: l' =>
      if key y <=? key x then x :: y :: l' else y :: insert_desc x l'
  end.

(** [sorted(l, key=key, reverse=True)], the stable descending sort. *)
Fixpoint sorted_desc (l : list A) : list A :=
  match l with
  | [] => []
  | x :: l' => insert_desc x (sorted_desc l')
  end.

(** The part of [l] whose key is [k], in the order of [l]. *)
Definition with_key (k : Z) (l : list A) : list A :=
  filter (λ x, key x = k) l.

(** Keys never increase along [l]. *)
Definition descending (l : list A) : Prop :=
  StronglySorted (λ x y, key y ≤ key x) l.

End Sorted.

(** [l[:n]] with Python's treatment of a negative stop: it counts from the
    end and is clamped at the start of the list. *)
Definition slice_to {A} (l : list A) (n : Z) : list A :=
  if n <? 0 then take (Z.to_nat (len l + n)) l
  else take (Z.to_nat n) l.

(** [get_most_popular]; the argument is [None] when the caller leaves
    [n] out, and the default is 3. *)
Definition get_most_popular (p : Platform) (n : option Z) : list Course :=
  let n := default 3 n in
  slice_to (sorted_desc (λ c, len (students c)) (courses p)) n.

(** *** Files *)

(** What the file operations see and change.  A file is a sequence of
    bytes, and it is opened with [encoding='utf-8']: [files] gives the text
    of every file whose bytes are UTF-8 text, [not_text] names the files
    whose bytes are not, and [stdout] holds the lines printed so far.  A
    name in neither is the name of no file. *)
Record world : Type := mkWorld {
  files : gmap string string;
  not_text : gset string;
  stdout : list string
}.

Definition print (w : world) (line : string) : world :=
  mkWorld (files w) (not_text w) (stdout w ++ [line]).

(** [open(filename, 'r', encoding='utf-8')] followed by the [f.read()] of
    [json.load(f)]: opening raises [FileNotFoundError] when there is no
    such file, and reading raises [UnicodeDecodeError] when its bytes are
    not UTF-8 text. *)
Definition read_text (w : world) (filename : string) : res string :=
  match files w !! filename with
  | Some text => Ok text
  | None =>
      if bool_decide (filename ∈ not_text w) then Raise UnicodeDecodeError
      else Raise (FileNotFoundError filename)
  end.

(** Iterating over a decoded document: a list yields its items, a dict its
    keys, a string its characters; nothing else is iterable. *)
Definition iterate (data : value) : res (list value) :=
  match data with
  | VList l => Ok l
  | VDict d => Ok ((λ kv, VStr kv.1) <$> map_to_list d)
  | VStr s => Ok ((λ a, VStr (String a "")) <$> String.list_ascii_of_string s)
  | _ => Raise TypeError
  end.

(** [Course.from_dict(item)]: only a dict has [.get]. *)
Definition from_dict_item (item : value) : res Course :=
  match item with
  | VDict d => from_dict d
  | _ => Raise AttributeError
  end.

Section Json.

(** [json.load] and [json.dump] are library code.  [json_load text] is
    what the parser makes of the text that was read: [None] when the text
    is not a JSON document ([JSONDecodeError]). *)
Variable json_load : string → option value.
Variable json_dump : value → string.

(** The parsing half of [json.load(f)], after the text has been read. *)
Definition decode (text : string) : res value :=
  match json_load text with
  | Some v => Ok v
  | None => Raise JSONDecodeError
  end.

Definition save_to_json (p : Platform) (filename : string) (w : world)
    : world :=
  let data := VList ((λ c, VDict (to_dict c)) <$> courses p) in
  mkWorld (<[filename := json_dump data]> (files w))
          (not_text w ∖ {[filename]}) (stdout w).

(** [load_from_json]: the outcome of the call, the platform and the world
    afterwards.  The assignment to [self.__courses] is the last statement
    of the [try] block; the two [except] clauses print and return, and
    every other exception leaves the method. *)
Definition load_from_json (p : Platform) (filename : string) (w : world)
    : res () * Platform * world :=
  let body : res (list Course) :=
    text ← read_text w filename;
    data ← decode text;
    items ← iterate data;
    comprehension from_dict_item items in
  match body with
  | Ok cs => (Ok (), set_courses p cs, w)
  | Raise (FileNotFoundError _) =>
      (Ok (), p, print w ("File " +:+ filename +:+ " not found."))
  | Raise JSONDecodeError =>
      (Ok (), p, print w ("Error reading JSON from " +:+ filename +:+ "."))
  | Raise e => (Raise e, p, w)
  end.

End Json.


(** *** Vocabulary for statements about records *)

(** The keys that [from_dict] reads with [data[k]]. *)
Definition required_fields : list string :=
  ["title"; "instructor"; "start_date"; "end_date"; "max_students"].

(** The keys of the discriminating attributes. *)
Definition attr_fields : list string := ["language"; "software"; "field"].

(** The record holds the five required fields, with these values. *)
Definition has_fields (data : dict) (t i s e : string) (m : Z) : Prop :=
  data !! "title" = Some (VStr t) ∧
  data !! "instructor" = Some (VStr i) ∧
  data !! "start_date" = Some (VStr s) ∧
  data !! "end_date" = Some (VStr e) ∧
  data !! "max_students" = Some (VInt m).

(** The tag names one of the three subclasses. *)
Definition known_tag (tag : option value) : Prop :=
  tag = Some (VStr "ProgrammingCourse") ∨
  tag = Some (VStr "DesignCourse") ∨
  tag = Some (VStr "ScienceCourse").

(** The class with its attribute emptied. *)
Definition forget_attr (k : course_class) : course_class :=
  match k with
  | BaseCourse => BaseCourse
  | ProgrammingCourse _ => ProgrammingCourse ""
  | DesignCourse _ => DesignCourse ""
  | ScienceCourse _ => ScienceCourse ""
  end.

Definition set_cls (c : Course) (k : course_class) : Course :=
  mkCourse k (title c) (instructor c) (start_date c) (end_date c)
    (max_students c) (students c).

(** The subclass that a tag selects: the key of its attribute and its
    constructor; [None] for the base class. *)
Definition tag_attr (tag : option value)
    : option (string * (string → course_class)) :=
  if eq_str tag "ProgrammingCourse" then Some ("language", ProgrammingCourse)
  else if eq_str tag "DesignCourse" then Some ("software", DesignCourse)
  else if eq_str tag "ScienceCourse" then Some ("field", ScienceCourse)
  else None.

(** The keys that [from_dict] looks at in a record: the tag, the required
    fields, the attribute of the tagged subclass and the student list. *)
Definition read_keys (data : dict) : list string :=
  "type" :: required_fields ++
  match tag_attr (data !! "type") with
  | Some (k, _) => [k]
  | None => []
  end ++ ["students"].

(** The record constructor with the class last. *)
Definition mkCourse' (t i s e : string) (m : Z) (k : course_class)
    (studs : list string) : Course :=
  mkCourse k t i s e m studs.

(** ** Objects that share lists

    Python lists are objects: [to_dict] puts the course's own list into
    the record, the [students] property hands out a copy, and [from_dict]
    stores the list it finds in the record.  To speak about who shares a
    list with whom, the lists live in a store under addresses, and a
    course object holds the address of its student list next to its other
    attributes, which never change after construction. *)

Module Shared.

Abbreviation store := (gmap nat (list string)).

(** A course object: [attrs] carries the class and the five common
    attributes (its own [students] field is the empty list and is not
    used), [students_at] is the address of the list object. *)
Record CourseObj : Type := mkObj {
  attrs : Course;
  students_at : nat
}.

(** The list object at an address. *)
Definition list_at (σ : store) (a : nat) : list string :=
  default [] (σ !! a).

(** The course as the value-level definitions see it. *)
Definition view (σ : store) (o : CourseObj) : Course :=
  set_students (attrs o) (list_at σ (students_at o)).

(** A new list object with the given content. *)
Definition alloc (l : list string) (σ : store) : nat * store :=
  let a := fresh (dom σ) in (a, <[a := l]> σ).

(** [__init__]: [self.__students = []] makes a new list.  The argument is
    the result of one of the four value-level constructors. *)
Definition new (c : Course) (σ : store) : CourseObj * store :=
  let '(a, σ') := alloc [] σ in (mkObj (set_students c []) a, σ').

(** [add_student] appends to the list object in place. *)
Definition add_student (o : CourseObj) (name : string) (σ : store)
    : res () * store :=
  let l := list_at σ (students_at o) in
  if len l >=? max_students (attrs o) then
    (Raise (CourseFullError ("Course '" +:+ title (attrs o) +:+ "' is full.")),
     σ)
  else
    (Ok (), <[students_at o := l ++ [name]]> σ).

(** The [students] property: [self.__students.copy()]. *)
Definition students (o : CourseObj) (σ : store) : nat * store :=
  alloc (list_at σ (students_at o)) σ.

(** [lst.append(name)] by whoever holds the list at [a]. *)
Definition append (a : nat) (name : string) (σ : store) : store :=
  <[a := list_at σ a ++ [name]]> σ.

(** An entry of a record: an immutable value, or a list object. *)
Inductive entry : Type :=
| Plain (v : value)
| ListAt (a : nat).

Definition plain (e : entry) : option value :=
  match e with
  | Plain v => Some v
  | ListAt _ => None
  end.

(** [to_dict]: the ["students"] entry is [self.__students] itself. *)
Definition to_dict (o : CourseObj) : gmap string entry :=
  list_to_map [
    ("type", Plain (VStr (class_name (cls (attrs o)))));
    ("title", Plain (VStr (title (attrs o))));
    ("instructor", Plain (VStr (instructor (attrs o))));
    ("start_date", Plain (VStr (start_date (attrs o))));
    ("end_date", Plain (VStr (end_date (attrs o))));
    ("max_students", Plain (VInt (max_students (attrs o))));
    ("students", ListAt (students_at o))
  ].

(** [from_dict]: the constructor call is the value-level one on the other
    entries; then [course._Course__students = data.get("students", [])]
    stores the list object of the record, or a new empty list when the
    record has none. *)
Definition from_dict (data : gmap string entry) (σ : store)
    : res CourseObj * store :=
  match from_dict (omap plain (delete "students" data)) with
  | Raise e => (Raise e, σ)
  | Ok c =>
      match data !! "students" with
      | Some (ListAt a) => (Ok (mkObj c a), σ)
      | Some (Plain _) => (Raise (IllTyped "students"), σ)
      | None => let '(a, σ') := alloc [] σ in (Ok (mkObj c a), σ')
      end
  end.

End Shared.
(** ** Sample objects: the courses built by [main.py] *)

Definition python_course : Course :=
  ProgrammingCourse_init "Python for Beginners" "Ivanov I.I."
    "2025-01-10" "2025-04-10" 30 "Python".

Definition design_course : Course :=
  DesignCourse_init "UI/UX Design" "Petrova A.S."
    "2025-02-01" "2025-05-01" 25 "Figma".

(** A course declared with a negative capacity: the constructor takes any
    integer. *)
Definition negative_course : Course :=
  Course_init "Empty" "Nobody" "2025-01-01" "2025-01-02" (-1).

(** A record with two students for a capacity of one, as a hand-edited
    file may hold it. *)
Definition overfull_record : dict :=
  list_to_map [
    ("type", VStr "Course");
    ("title", VStr "Small");
    ("instructor", VStr "Ivanov I.I.");
    ("start_date", VStr "2025-01-10");
    ("end_date", VStr "2025-04-10");
    ("max_students", VInt 1);
    ("students", VList [VStr "A"; VStr "B"])
  ].

(** The scenario of the capacity rule: room for two. *)
Definition small_course : Course :=
  Course_init "Small" "Ivanov I.I." "2025-01-10" "2025-04-10" 2.

(** The Python course of [main.py] after its first two enrolments. *)
Definition enrolled_python_course : Course :=
  (add_students python_course ["Sidorov Petr"; "Kozlova Anna"]).2.

(** A record without a tag that still carries a [language]. *)
Definition untagged_record : dict :=
  list_to_map [
    ("title", VStr "Python for Beginners");
    ("instructor", VStr "Ivanov I.I.");
    ("start_date", VStr "2025-01-10");
    ("end_date", VStr "2025-04-10");
    ("max_students", VInt 30);
    ("language", VStr "Python");
    ("students", VList [VStr "Sidorov Petr"])
  ].

(** A tagged record with neither attribute nor student list. *)
Definition bare_programming_record : dict :=
  list_to_map [
    ("type", VStr "ProgrammingCourse");
    ("title", VStr "Python for Beginners");
    ("instructor", VStr "Ivanov I.I.");
    ("start_date", VStr "2025-01-10");
    ("end_date", VStr "2025-04-10");
    ("max_students", VInt 30)
  ].

(** A record that lacks [end_date] and [max_students]. *)
Definition incomplete_record : dict :=
  list_to_map [
    ("type", VStr "DesignCourse");
    ("title", VStr "UI/UX Design");
    ("instructor", VStr "Petrova A.S.");
    ("start_date", VStr "2025-02-01");
    ("software", VStr "Figma")
  ].

(** A course with [n] students enrolled through [add_student]. *)
Definition course_with (t : string) (n : nat) : Course :=
  (add_students (Course_init t "Ivanov I.I." "2025-01-10" "2025-04-10" 30)
                (replicate n "Student")).2.

(** The ranking scenario: student counts 10, 2 and 15 in insertion order,
    then a second course with 10 students. *)
Definition ranking_platform : Platform :=
  add_course (add_course (add_course (add_course (Platform_init "SuperLearn")
    (course_with "Algebra" 10)) (course_with "Botany" 2))
    (course_with "Chemistry" 15)) (course_with "Drawing" 10).

(** A stand-in for [json.load] that knows two documents: the empty array
    and the array holding [bare_programming_record]. *)
Definition quoted (s : string) : string :=
  String "034"%char s +:+ String "034"%char "".

Definition records_text : string :=
  "[{" +:+ quoted "type" +:+ ": " +:+ quoted "ProgrammingCourse" +:+ ", "
       +:+ quoted "title" +:+ ": " +:+ quoted "Python for Beginners" +:+ ", "
       +:+ quoted "instructor" +:+ ": " +:+ quoted "Ivanov I.I." +:+ ", "
       +:+ quoted "start_date" +:+ ": " +:+ quoted "2025-01-10" +:+ ", "
       +:+ quoted "end_date" +:+ ": " +:+ quoted "2025-04-10" +:+ ", "
       +:+ quoted "max_students" +:+ ": 30}]".

Definition sample_json_load (text : string) : option value :=
  if bool_decide (text = "[]") then Some (VList [])
  else if bool_decide (text = records_text)
       then Some (VList [VDict bare_programming_record])
  else None.

(** A world with a good file, a truncated one, and one saved in another
    encoding, whose bytes are not UTF-8 text. *)
Definition sample_world : world :=
  mkWorld (list_to_map [("platform_data.json", records_text);
                        ("broken.json", "[{")])
          {["latin1.json"]} [].

(** A course that ends before it starts, and one whose dates are not
    dates at all. *)
Definition reversed_course : Course :=
  Course_init "Backwards" "Ivanov I.I." "2025-04-10" "2025-01-10" 5.

Definition undated_course : Course :=
  Course_init "Someday" "Ivanov I.I." "soon" "2025-01-10" 5.

(** The platform of [main.py] and the document that [save_to_json] hands
    to [json.dump] for it. *)
Definition main_platform : Platform :=
  add_course (add_course (Platform_init "SuperLearn") enrolled_python_course)
    design_course.

Definition main_document : value :=
  VList [VDict (to_dict enrolled_python_course); VDict (to_dict design_course)].

(** A stand-in for a matching [json.dump] / [json.load] pair on that one
    document: the text is a token that the reader maps back. *)
Definition token_json_dump (v : value) : string := "main_document".

Definition token_json_load (text : string) : option value :=
  if bool_decide (text = "main_document") then Some main_document else None.

(** A stand-in reader for documents that are not lists of records. *)
Definition odd_json_load (text : string) : option value :=
  if bool_decide (text = "{}") then Some (VDict ∅)
  else if bool_decide (text = "7") then Some (VInt 7)
  else if bool_decide (text = "[7]") then Some (VList [VInt 7])
  else if bool_decide (text = "two")
       then Some (VList [VDict bare_programming_record;
                         VDict incomplete_record])
  else None.

Definition odd_world : world :=
  mkWorld (list_to_map [("empty.json", "{}"); ("seven.json", "7");
                        ("list.json", "[7]"); ("two.json", "two")]) ∅ [].

(** Two course objects in a store, each with a list of its own, and a
    third object that holds the list of the first. *)
Definition python_object : Shared.CourseObj := (Shared.new python_course ∅).1.

Definition design_object : Shared.CourseObj :=
  (Shared.new design_course (Shared.new python_course ∅).2).1.

Definition two_objects : Shared.store :=
  (Shared.new design_course (Shared.new python_course ∅).2).2.

Definition python_alias : Shared.CourseObj :=
  Shared.mkObj (set_cls python_course (ProgrammingCourse ""))
    (Shared.students_at python_object).

(** The course that [overfull_record] describes. *)
Definition overfull_course : Course :=
  mkCourse BaseCourse "Small" "Ivanov I.I." "2025-01-10" "2025-04-10" 1
    ["A"; "B"].

(** ** Proof automation *)

(** Membership in a list that is written out. *)
Ltac in_list := rewrite ?elem_of_cons; auto 12.

(** * Properties *)

(** ** Outcomes and comprehensions *)

Lemma bind_Ok {A B} (a : A) (f : A → res B) : (Ok a ≫= f) = f a.
Proof. reflexivity. Qed.

Lemma comprehension_Ok {A B} (f : A → res B) (xs : list A) (ys : list B) :
  comprehension f xs = Ok ys ↔ Forall2 (λ x y, f x = Ok y) xs ys.
Proof.
  revert ys. induction xs as [|x xs IH]; intros ys; simpl.
  - split.
    + intros [= <-]. constructor.
    + intros H. inversion H. reflexivity.
  - destruct (f x) as [y|e] eqn:Hx; simpl.
    + destruct (comprehension f xs) as [ys'|e] eqn:Hxs; simpl.
      * split.
        -- intros [= <-]. constructor; [exact Hx | by apply IH].
        -- intros H. inversion H as [|? y0 ? ys0 Hy Hys]; subst.
           apply IH in Hys. congruence.
      * split; [discriminate|].
        intros H. inversion H as [|? y0 ? ys0 Hy Hys]; subst.
        apply IH in Hys. discriminate.
    + split; [discriminate|].
      intros H. inversion H; subst. congruence.
Qed.

Lemma comprehension_fmap {A B} (f : B → res A) (g : A → B) (xs : list A) :
  (∀ x, f (g x) = Ok x) → comprehension f (g <$> xs) = Ok xs.
Proof.
  intros Hfg. induction xs as [|x xs IH]; [done|].
  rewrite fmap_cons. cbn [comprehension]. by rewrite Hfg, IH.
Qed.

Lemma comprehension_Raise {A B} (f : A → res B) (xs : list A) (e : exn) :
  comprehension f xs = Raise e → ∃ x, x ∈ xs ∧ f x = Raise e.
Proof.
  induction xs as [|x xs IH]; simpl; [discriminate|].
  destruct (f x) as [y|e'] eqn:Hx; simpl.
  - destruct (comprehension f xs) as [ys|e'']; simpl; [discriminate|].
    intros [= ->]. destruct IH as (x' & ? & ?); [done|].
    exists x'. split; [by right | done].
  - intros [= ->]. exists x. split; [by left | done].
Qed.

(** ** [add_student] *)

Lemma len_nonneg {A} (l : list A) : 0 ≤ len l.
Proof. unfold len. lia. Qed.

Lemma len_app {A} (l1 l2 : list A) : len (l1 ++ l2) = len l1 + len l2.
Proof. unfold len. rewrite length_app. lia. Qed.

Lemma add_student_full (c : Course) (name : string) :
  max_students c ≤ len (students c) →
  add_student c name =
    (Raise (CourseFullError ("Course '" +:+ title c +:+ "' is full.")), c).
Proof.
  intros H. unfold add_student.
  destruct (Z.geb_spec (len (students c)) (max_students c)); [done | lia].
Qed.

Lemma add_student_room (c : Course) (name : string) :
  len (students c) < max_students c →
  add_student c name = (Ok (), set_students c (students c ++ [name])).
Proof.
  intros H. unfold add_student.
  destruct (Z.geb_spec (len (students c)) (max_students c)); [lia | done].
Qed.

(** One call keeps everything but the student list, and keeps the list
    within a non-negative capacity. *)
Lemma add_student_preserves (c : Course) (name : string) :
  let c' := (add_student c name).2 in
  max_students c' = max_students c ∧ title c' = title c ∧ cls c' = cls c ∧
  (len (students c) ≤ max_students c → len (students c') ≤ max_students c').
Proof.
  unfold add_student.
  destruct (Z.geb_spec (len (students c)) (max_students c)); simpl.
  - done.
  - rewrite len_app. change (len [name]) with 1. repeat split; lia.
Qed.

Lemma add_students_preserves (c : Course) (names : list string) :
  let c' := (add_students c names).2 in
  max_students c' = max_students c ∧ title c' = title c ∧ cls c' = cls c ∧
  (len (students c) ≤ max_students c → len (students c') ≤ max_students c').
Proof.
  revert c. induction names as [|name rest IH]; intros c; simpl; [done|].
  pose proof (add_student_preserves c name) as Hone.
  destruct (add_student c name) as [r c1]. simpl in Hone.
  specialize (IH c1).
  destruct (add_students c1 rest) as [rs c2]. simpl in *.
  destruct Hone as (Hm1 & Ht1 & Hc1 & Hone), IH as (Hm2 & Ht2 & Hc2 & IH).
  repeat split; [congruence.. |]. auto.
Qed.

(** Calls issued one after the other compose. *)
Lemma add_students_app (c : Course) (names1 names2 : list string) :
  add_students c (names1 ++ names2) =
    let '(rs1, c1) := add_students c names1 in
    let '(rs2, c2) := add_students c1 names2 in
    (rs1 ++ rs2, c2).
Proof.
  revert c. induction names1 as [|name rest IH]; intros c; simpl.
  - by destruct (add_students c names2).
  - destruct (add_student c name) as [r c1]. rewrite IH.
    destruct (add_students c1 rest) as [rs1 c2].
    by destruct (add_students c2 names2).
Qed.

(** The list only grows at its end: earlier students stay, in order. *)
Lemma add_students_prefix (c : Course) (names : list string) :
  students c `prefix_of` students (add_students c names).2.
Proof.
  revert c. induction names as [|name rest IH]; intros c; simpl; [done|].
  unfold add_student at 1.
  destruct (len (students c) >=? max_students c).
  - specialize (IH c). by destruct (add_students c rest).
  - specialize (IH (set_students c (students c ++ [name]))).
    destruct (add_students _ rest) as [rs c2]. simpl in *.
    etrans; [|exact IH]. by apply prefix_app_r.
Qed.

(** C2, as stated, at a course declared with capacity -1: the one call is
    refused, the list stays empty, and 0 ≤ -1 does not hold. *)
Lemma add_student_negative_capacity :
  let c := (add_students negative_course ["A"]).2 in
  students negative_course = [] ∧
  students c = [] ∧ max_students c = -1 ∧
  ¬ (len (students c) ≤ max_students c).
Proof.
  repeat split; try reflexivity.
  intros H. vm_compute in H. by apply H.
Qed.

(** C2 (amended): for a course whose student list is empty, as every
    constructor leaves it, and whose capacity is not negative, the list is
    within capacity after each call of any sequence of [add_student]
    calls; the next call is refused with [CourseFullError] naming the
    title, leaving the object as it was, exactly when the list has reached
    the capacity, and otherwise appends the name as given, whatever the
    name is. *)
Theorem add_student_capacity (c : Course) (names : list string) (name : string) :
  students c = [] →
  0 ≤ max_students c →
  (∀ k, len (students (add_students c (take k names)).2) ≤ max_students c) ∧
  let c' := (add_students c names).2 in
  len (students c') ≤ max_students c' ∧
  (len (students c') = max_students c' →
     add_student c' name =
       (Raise (CourseFullError ("Course '" +:+ title c +:+ "' is full.")), c')) ∧
  (len (students c') < max_students c' →
     add_student c' name = (Ok (), set_students c' (students c' ++ [name]))).
Proof.
  intros Hempty Hcap.
  assert (len (students c) ≤ max_students c) as Hstart.
  { rewrite Hempty. unfold len. simpl. lia. }
  split.
  { intros k.
    destruct (add_students_preserves c (take k names)) as (Hmax & _ & _ & Hinv).
    rewrite <- Hmax. by apply Hinv. }
  intros c'.
  destruct (add_students_preserves c names) as (Hmax & Htitle & _ & Hinv).
  fold c' in Hmax, Htitle, Hinv.
  split; [|split].
  - by apply Hinv.
  - intros Hfull. rewrite <- Htitle. apply add_student_full. lia.
  - apply add_student_room.
Qed.

Lemma add_student_capacity_witness :
  let c' := (add_students small_course ["A"; "B"]).2 in
  students c' = ["A"; "B"] ∧
  add_student c' "C" =
    (Raise (CourseFullError "Course 'Small' is full."), c') ∧
  completion_rate c' == 100%Q.
Proof.
  intros c'. split; [reflexivity|]. split; [|reflexivity].
  destruct (add_student_capacity small_course ["A"; "B"] "C")
    as (_ & _ & Hfull & _);
    [reflexivity | vm_compute; discriminate |].
  apply Hfull. reflexivity.
Defined.

(** Empty and repeated names go through like any other. *)
Lemma add_student_any_name :
  (add_students small_course [""; ""]).1 = [Ok (); Ok ()] ∧
  students (add_students small_course [""; ""]).2 = [""; ""].
Proof. split; reflexivity. Qed.

(** ** [completion_rate] *)

Lemma completion_rate_zero_capacity (c : Course) :
  max_students c = 0 → completion_rate c = 0%Q.
Proof. intros H. unfold completion_rate. by rewrite H. Qed.

(** The value is the percentage [100 * len / max]. *)
Lemma completion_rate_formula (c : Course) :
  max_students c ≠ 0 →
  (completion_rate c ==
     100 * inject_Z (len (students c)) / inject_Z (max_students c))%Q.
Proof.
  intros H. unfold completion_rate.
  destruct (Z.eqb_spec (max_students c) 0); [done|].
  unfold Qdiv. ring.
Qed.

(** Within capacity the percentage is between 0 and 100. *)
Lemma completion_rate_range (c : Course) :
  len (students c) ≤ max_students c →
  (0 <= completion_rate c)%Q ∧ (completion_rate c <= 100)%Q.
Proof.
  intros H. pose proof (len_nonneg (students c)) as H0.
  unfold completion_rate.
  destruct (Z.eqb_spec (max_students c) 0) as [|Hne]; [done|].
  destruct (max_students c) as [|m|m] eqn:Hm; [done| |lia].
  unfold Qle, Qdiv, Qmult, Qinv, inject_Z. simpl.
  split; nia.
Qed.

(** Courses built by a constructor and [add_student] stay in that range. *)
Lemma completion_rate_constructed (c : Course) (names : list string) :
  students c = [] → 0 ≤ max_students c →
  let c' := (add_students c names).2 in
  (0 <= completion_rate c')%Q ∧ (completion_rate c' <= 100)%Q.
Proof.
  intros He Hc c'. apply completion_rate_range.
  destruct (add_students_preserves c names) as (_ & _ & _ & Hinv).
  apply Hinv. rewrite He. unfold len. simpl. lia.
Qed.

Lemma completion_rate_full_course :
  completion_rate (add_students small_course ["A"; "B"; "C"]).2 == 100%Q.
Proof. reflexivity. Qed.

(** C3 at a course restored from a record with two students for a capacity
    of one: [from_dict] stores the list as it is, and the rate is 200. *)
Theorem completion_rate_overfull :
  ∃ c, from_dict overfull_record = Ok c ∧
       students c = ["A"; "B"] ∧ max_students c = 1 ∧
       (completion_rate c == 200)%Q ∧
       ¬ (completion_rate c <= 100)%Q.
Proof.
  eexists. split; [vm_compute; reflexivity|].
  repeat split. intros H. vm_compute in H. by apply H.
Qed.

(** ** The codec *)

Lemma eq_str_true (v : option value) (s : string) :
  eq_str v s = true ↔ v = Some (VStr s).
Proof.
  unfold eq_str. destruct v as [[]|]; try (split; [discriminate | congruence]).
  rewrite bool_decide_eq_true. split; congruence.
Qed.

Lemma eq_str_false (v : option value) (s : string) :
  eq_str v s = false ↔ v ≠ Some (VStr s).
Proof. rewrite <- eq_str_true. destruct (eq_str v s); naive_solver. Qed.

Lemma as_str_list_strings (field : string) (l : list string) :
  as_str_list field (VList (VStr <$> l)) = Ok l.
Proof. simpl. by apply comprehension_fmap. Qed.

(** What [to_dict] writes under each key it writes. *)
Lemma to_dict_lookup (c : Course) :
  to_dict c !! "type" = Some (VStr (class_name (cls c))) ∧
  has_fields (to_dict c)
    (title c) (instructor c) (start_date c) (end_date c) (max_students c) ∧
  to_dict c !! "students" = Some (VList (VStr <$> students c)).
Proof. repeat split; reflexivity. Qed.

(** The keys of the record are the same seven for every class. *)
Lemma to_dict_keys (c : Course) (k : string) :
  is_Some (to_dict c !! k) ↔
  k ∈ "type" :: required_fields ++ ["students"].
Proof.
  unfold to_dict, required_fields. cbn [list_to_map foldr uncurry fst snd app].
  rewrite !lookup_insert_is_Some', lookup_empty, is_Some_alt.
  rewrite !elem_of_cons, elem_of_nil.
  split; intros H; repeat (destruct H as [H|H]; [subst; auto 10|]); done.
Qed.

(** No record produced by [to_dict] has a discriminating attribute. *)
Lemma to_dict_no_attr (c : Course) (k : string) :
  k ∈ attr_fields → to_dict c !! k = None.
Proof.
  unfold attr_fields. rewrite !elem_of_cons, elem_of_nil.
  intros [->|[->|[->|[]]]]; reflexivity.
Qed.

(** [from_dict] on a record whose required fields and student list have
    the annotated types: the tag picks the constructor, the attribute is
    read with its default, and the list is stored as it is. *)
Lemma from_dict_typed (data : dict) (t i s e : string) (m : Z)
    (studs : list string) :
  has_fields data t i s e m →
  get data "students" (VList []) = VList (VStr <$> studs) →
  from_dict data =
    if eq_str (data !! "type") "ProgrammingCourse" then
      (λ l, mkCourse (ProgrammingCourse l) t i s e m studs)
        <$> as_str "language" (get data "language" (VStr ""))
    else if eq_str (data !! "type") "DesignCourse" then
      (λ l, mkCourse (DesignCourse l) t i s e m studs)
        <$> as_str "software" (get data "software" (VStr ""))
    else if eq_str (data !! "type") "ScienceCourse" then
      (λ l, mkCourse (ScienceCourse l) t i s e m studs)
        <$> as_str "field" (get data "field" (VStr ""))
    else Ok (mkCourse BaseCourse t i s e m studs).
Proof.
  intros (Ht & Hi & Hs & He & Hm) Hst.
  unfold from_dict, getitem. rewrite Ht, Hi, Hs, He, Hm, Hst.
  rewrite as_str_list_strings.
  repeat (case (eq_str _ _)); cbn;
    try (match goal with |- context [as_str ?f ?v] => destruct (as_str f v) end);
    reflexivity.
Qed.

(** A missing required field: the first one missing, in the order title,
    instructor, start_date, end_date, max_students, is the key of the
    [KeyError], whatever the tag and the other values are. *)
Lemma from_dict_KeyError (data : dict) :
  (∃ k, k ∈ required_fields ∧ data !! k = None) →
  ∃ k, k ∈ required_fields ∧ data !! k = None ∧
       from_dict data = Raise (KeyError k).
Proof.
  intros (k0 & Hk0 & Hnone).
  unfold required_fields in *.
  destruct (data !! "title") as [v1|] eqn:H1; last first.
  { exists "title". split; [in_list|]. split; [done|].
    unfold from_dict, getitem. rewrite H1.
    by repeat (case (eq_str _ _)). }
  destruct (data !! "instructor") as [v2|] eqn:H2; last first.
  { exists "instructor". split; [in_list|]. split; [done|].
    unfold from_dict, getitem. rewrite H1, H2.
    by repeat (case (eq_str _ _)). }
  destruct (data !! "start_date") as [v3|] eqn:H3; last first.
  { exists "start_date". split; [in_list|]. split; [done|].
    unfold from_dict, getitem. rewrite H1, H2, H3.
    by repeat (case (eq_str _ _)). }
  destruct (data !! "end_date") as [v4|] eqn:H4; last first.
  { exists "end_date". split; [in_list|]. split; [done|].
    unfold from_dict, getitem. rewrite H1, H2, H3, H4.
    by repeat (case (eq_str _ _)). }
  destruct (data !! "max_students") as [v5|] eqn:H5; last first.
  { exists "max_students". split; [in_list|]. split; [done|].
    unfold from_dict, getitem. rewrite H1, H2, H3, H4, H5.
    by repeat (case (eq_str _ _)). }
  exfalso. rewrite !elem_of_cons, elem_of_nil in Hk0.
  destruct Hk0 as [->|[->|[->|[->|[->|[]]]]]]; congruence.
Qed.

(** General round trip: everything comes back except the discriminating
    attribute, which [to_dict] never wrote and [from_dict] therefore
    defaults to the empty string.  Capacity plays no part. *)
Lemma from_dict_to_dict (c : Course) :
  from_dict (to_dict c) = Ok (set_cls c (forget_attr (cls c))).
Proof.
  destruct (to_dict_lookup c) as (Htype & Hfields & Hst).
  rewrite (from_dict_typed _ _ _ _ _ _ (students c) Hfields);
    [|by unfold get; rewrite Hst].
  rewrite Htype. unfold get.
  rewrite !to_dict_no_attr by (unfold attr_fields; in_list).
  destruct c as [[] ? ? ? ? ? ?]; reflexivity.
Qed.

Lemma from_dict_to_dict_base (c : Course) :
  cls c = BaseCourse → from_dict (to_dict c) = Ok c.
Proof.
  intros H. rewrite from_dict_to_dict, H. by destruct c; simpl in *; subst.
Qed.

(** C5 at the Python course of [main.py]: the record is tagged
    [ProgrammingCourse] and has the six common fields, but none of
    [language], [software], [field]: the course's language is not in it. *)
Theorem to_dict_omits_attribute :
  class_attr (cls python_course) = Some ("language", "Python") ∧
  to_dict python_course !! "type" = Some (VStr "ProgrammingCourse") ∧
  (∀ k, is_Some (to_dict python_course !! k) ↔
        k ∈ "type" :: required_fields ++ ["students"]) ∧
  (∀ k, k ∈ attr_fields → to_dict python_course !! k = None).
Proof.
  split; [reflexivity|]. split; [reflexivity|].
  split; [apply to_dict_keys | apply to_dict_no_attr].
Qed.

(** C1 at the Python course of [main.py] with two students: the round trip
    succeeds and returns the class, the five common attributes and the
    student list, but the language comes back empty. *)
Theorem round_trip_loses_attribute :
  let c := enrolled_python_course in
  ∃ c', from_dict (to_dict c) = Ok c' ∧
        title c' = title c ∧ instructor c' = instructor c ∧
        start_date c' = start_date c ∧ end_date c' = end_date c ∧
        max_students c' = max_students c ∧
        students c' = students c ∧
        class_name (cls c') = class_name (cls c) ∧
        cls c = ProgrammingCourse "Python" ∧
        cls c' = ProgrammingCourse "" ∧
        c' ≠ c.
Proof.
  intros c. eexists. split; [apply from_dict_to_dict|].
  repeat split. discriminate.
Qed.

(** C7: [from_dict] with a record that lacks one of the five required
    fields raises [KeyError] for a missing one; with the required fields
    present, an unknown or missing tag gives a base [Course] whatever the
    record holds under [language], [software] or [field], and a known tag
    whose attribute is absent gives that subclass with the empty string. *)
Theorem from_dict_fallbacks (data : dict) :
  ((∃ k, k ∈ required_fields ∧ data !! k = None) →
   ∃ k, k ∈ required_fields ∧ data !! k = None ∧
        from_dict data = Raise (KeyError k)) ∧
  (∀ t i s e m studs,
     has_fields data t i s e m →
     get data "students" (VList []) = VList (VStr <$> studs) →
     (¬ known_tag (data !! "type") →
        from_dict data = Ok (mkCourse BaseCourse t i s e m studs)) ∧
     (data !! "type" = Some (VStr "ProgrammingCourse") →
      data !! "language" = None →
        from_dict data = Ok (mkCourse (ProgrammingCourse "") t i s e m studs)) ∧
     (data !! "type" = Some (VStr "DesignCourse") →
      data !! "software" = None →
        from_dict data = Ok (mkCourse (DesignCourse "") t i s e m studs)) ∧
     (data !! "type" = Some (VStr "ScienceCourse") →
      data !! "field" = None →
        from_dict data = Ok (mkCourse (ScienceCourse "") t i s e m studs))).
Proof.
  split; [apply from_dict_KeyError|].
  intros t i s e m studs Hf Hst.
  rewrite (from_dict_typed data t i s e m studs Hf Hst).
  repeat split.
  - intros Hunknown. unfold known_tag in Hunknown.
    destruct (eq_str _ "ProgrammingCourse") eqn:E1;
      [apply eq_str_true in E1; tauto|].
    destruct (eq_str _ "DesignCourse") eqn:E2;
      [apply eq_str_true in E2; tauto|].
    destruct (eq_str _ "ScienceCourse") eqn:E3;
      [apply eq_str_true in E3; tauto|].
    reflexivity.
  - intros -> Hattr. unfold get. by rewrite Hattr.
  - intros -> Hattr. unfold get. by rewrite Hattr.
  - intros -> Hattr. unfold get. by rewrite Hattr.
Qed.

Lemma from_dict_fallbacks_witness :
  from_dict untagged_record =
    Ok (mkCourse BaseCourse "Python for Beginners" "Ivanov I.I."
          "2025-01-10" "2025-04-10" 30 ["Sidorov Petr"]) ∧
  from_dict bare_programming_record =
    Ok (mkCourse (ProgrammingCourse "") "Python for Beginners" "Ivanov I.I."
          "2025-01-10" "2025-04-10" 30 []) ∧
  ∃ k, k ∈ required_fields ∧ incomplete_record !! k = None ∧
       from_dict incomplete_record = Raise (KeyError k).
Proof.
  split; [|split].
  - apply (from_dict_fallbacks untagged_record).
    + repeat split; reflexivity.
    + reflexivity.
    + intros [H|[H|H]]; vm_compute in H; discriminate H.
  - apply (from_dict_fallbacks bare_programming_record).
    + repeat split; reflexivity.
    + reflexivity.
    + reflexivity.
    + reflexivity.
  - apply (from_dict_fallbacks incomplete_record).
    exists "max_students". split; [unfold required_fields; in_list | reflexivity].
Defined.

(** C10: a record with the required fields and no [students] field is
    accepted, and the course it gives has no students. *)
Theorem from_dict_students_default (data : dict) (t i s e : string) (m : Z) :
  has_fields data t i s e m →
  (∀ k v, k ∈ attr_fields → data !! k = Some v → ∃ a, v = VStr a) →
  data !! "students" = None →
  ∃ k, from_dict data = Ok (mkCourse k t i s e m []).
Proof.
  intros Hf Hattr Hnone.
  rewrite (from_dict_typed data t i s e m [] Hf)
    by (unfold get; by rewrite Hnone).
  assert (∀ k, k ∈ attr_fields → ∃ a, get data k (VStr "") = VStr a) as Hget.
  { intros k Hk. unfold get. destruct (data !! k) as [v|] eqn:E; [|by eexists].
    by apply (Hattr k v). }
  destruct (Hget "language") as [a1 ->]; [unfold attr_fields; in_list|].
  destruct (Hget "software") as [a2 ->]; [unfold attr_fields; in_list|].
  destruct (Hget "field") as [a3 ->]; [unfold attr_fields; in_list|].
  repeat (case (eq_str _ _)); cbn; eexists; reflexivity.
Qed.

Lemma from_dict_students_default_witness :
  ∃ k, from_dict bare_programming_record =
         Ok (mkCourse k "Python for Beginners" "Ivanov I.I."
               "2025-01-10" "2025-04-10" 30 []).
Proof.
  apply (from_dict_students_default bare_programming_record).
  - repeat split; reflexivity.
  - unfold attr_fields. intros k v Hk.
    rewrite !elem_of_cons, elem_of_nil in Hk.
    destruct Hk as [->|[->|[->|[]]]]; vm_compute; discriminate.
  - reflexivity.
Defined.

(** ** Calendar arithmetic and [duration_days] *)

Lemma days_in_month_bounds (y m : Z) : 28 ≤ days_in_month y m ≤ 31.
Proof.
  unfold days_in_month.
  repeat match goal with |- context [if ?b then _ else _] => destruct b end;
    lia.
Qed.

Lemma foldr_days_snoc (y : Z) (l : list nat) (k : nat) :
  foldr (λ k acc, days_in_month y (Z.of_nat k) + acc) 0 (l ++ [k]) =
  foldr (λ k acc, days_in_month y (Z.of_nat k) + acc) 0 l
    + days_in_month y (Z.of_nat k).
Proof. induction l as [|j l IH]; simpl; lia. Qed.

Lemma days_before_month_first (y : Z) : days_before_month y 1 = 0.
Proof. reflexivity. Qed.

Lemma days_before_month_succ (y m : Z) :
  1 ≤ m →
  days_before_month y (m + 1) = days_before_month y m + days_in_month y m.
Proof.
  intros Hm. unfold days_before_month.
  replace (Z.to_nat (m + 1) - 1)%nat with (S (Z.to_nat m - 1)) by lia.
  rewrite seq_S, foldr_days_snoc.
  replace (Z.of_nat (1 + (Z.to_nat m - 1))) with m by lia. done.
Qed.

Lemma days_before_month_mono (y m1 m2 : Z) :
  1 ≤ m1 → m1 ≤ m2 → days_before_month y m1 ≤ days_before_month y m2.
Proof.
  intros H1 H12. revert m2 H12. apply Z.le_ind.
  - solve_proper.
  - lia.
  - intros m Hm IH. unfold Z.succ. rewrite days_before_month_succ by lia.
    pose proof (days_in_month_bounds y m). lia.
Qed.

Lemma days_before_month_nonneg (y m : Z) : 1 ≤ m → 0 ≤ days_before_month y m.
Proof.
  intros Hm. rewrite <- (days_before_month_first y).
  by apply days_before_month_mono.
Qed.

Lemma days_before_month_year_end (y : Z) :
  days_before_month y 13 = days_in_year y.
Proof.
  unfold days_before_month, days_in_year, days_in_month. simpl.
  destruct (is_leap y); reflexivity.
Qed.

Lemma days_before_year_succ (y : Z) :
  days_before_year (y + 1) = days_before_year y + days_in_year y.
Proof.
  unfold days_before_year, days_in_year, is_leap.
  replace (y + 1 - 1) with y by lia.
  destruct (Z.eqb_spec (y mod 4) 0), (Z.eqb_spec (y mod 100) 0),
    (Z.eqb_spec (y mod 400) 0); simpl;
    Z.div_mod_to_equations; lia.
Qed.

Lemma days_in_year_pos (y : Z) : 365 ≤ days_in_year y.
Proof. unfold days_in_year. destruct (is_leap y); lia. Qed.

Lemma days_before_year_mono (y1 y2 : Z) :
  y1 ≤ y2 → days_before_year y1 ≤ days_before_year y2.
Proof.
  revert y2. apply Z.le_ind.
  - solve_proper.
  - lia.
  - intros y Hy IH. unfold Z.succ. rewrite days_before_year_succ.
    pose proof (days_in_year_pos y). lia.
Qed.

(** A date lies within its year. *)
Lemma toordinal_in_year (d : date) :
  valid_date d →
  days_before_year (year d) < toordinal d ≤ days_before_year (year d + 1).
Proof.
  intros (Hy & Hm & Hd). unfold toordinal.
  pose proof (days_before_month_nonneg (year d) (month d)).
  pose proof (days_before_month_succ (year d) (month d)).
  pose proof (days_before_month_mono (year d) (month d + 1) 13).
  rewrite days_before_month_year_end in *.
  rewrite days_before_year_succ. lia.
Qed.

(** The ordinal follows the calendar order. *)
Lemma toordinal_lt (a b : date) :
  valid_date a → valid_date b → date_lt a b → toordinal a < toordinal b.
Proof.
  intros Ha Hb [Hy|[Hy [Hm|[Hm Hd]]]].
  - pose proof (toordinal_in_year a Ha). pose proof (toordinal_in_year b Hb).
    pose proof (days_before_year_mono (year a + 1) (year b)). lia.
  - destruct Ha as (_ & Ha1 & Ha2), Hb as (_ & Hb1 & Hb2).
    unfold toordinal. rewrite Hy in *.
    pose proof (days_before_month_succ (year b) (month a)).
    pose proof (days_before_month_mono (year b) (month a + 1) (month b)).
    lia.
  - unfold toordinal. rewrite Hy, Hm. lia.
Qed.

Lemma date_trichotomy (a b : date) : date_lt a b ∨ a = b ∨ date_lt b a.
Proof.
  destruct a as [ya ma da], b as [yb mb db]. unfold date_lt. simpl.
  destruct (Z.lt_trichotomy ya yb) as [?|[->|?]]; [tauto| |tauto].
  destruct (Z.lt_trichotomy ma mb) as [?|[->|?]]; [tauto| |tauto].
  destruct (Z.lt_trichotomy da db) as [?|[->|?]]; tauto.
Qed.

Lemma toordinal_lt_iff (a b : date) :
  valid_date a → valid_date b → (date_lt a b ↔ toordinal a < toordinal b).
Proof.
  intros Ha Hb. split; [by apply toordinal_lt|].
  intros Hlt. destruct (date_trichotomy a b) as [?|[->|Hba]]; [done|lia|].
  apply toordinal_lt in Hba; [lia|done..].
Qed.

(** C9: when both stored strings parse, [duration_days] returns the day
    count from the start date to the end date, negative exactly when the
    end date is the earlier one; when either string does not parse it
    raises [ValueError] with the fixed message, and it raises nothing
    else.  No constructor looks at the strings it stores. *)
Theorem duration_days_spec (strptime : string → option date) (c : Course) :
  let msg := "Invalid date format. Use 'YYYY-MM-DD'." in
  (∀ s e, strptime (start_date c) = Some s →
          strptime (end_date c) = Some e →
     duration_days strptime c = Ok (toordinal e - toordinal s) ∧
     (valid_date s → valid_date e →
        (date_lt e s ↔ toordinal e - toordinal s < 0))) ∧
  (duration_days strptime c = Raise (ValueError msg) ↔
     strptime (start_date c) = None ∨ strptime (end_date c) = None) ∧
  (∀ x, duration_days strptime c = Raise x → x = ValueError msg) ∧
  (∀ t i s e m a,
     start_date (Course_init t i s e m) = s ∧
     end_date (Course_init t i s e m) = e ∧
     start_date (ProgrammingCourse_init t i s e m a) = s ∧
     end_date (ProgrammingCourse_init t i s e m a) = e ∧
     start_date (DesignCourse_init t i s e m a) = s ∧
     end_date (DesignCourse_init t i s e m a) = e ∧
     start_date (ScienceCourse_init t i s e m a) = s ∧
     end_date (ScienceCourse_init t i s e m a) = e).
Proof.
  intros msg.
  split; [|split; [|split]].
  - intros s e Hs He. unfold duration_days, parse. rewrite Hs, He.
    split; [done|]. intros Hvs Hve.
    rewrite (toordinal_lt_iff e s Hve Hvs). lia.
  - unfold duration_days, parse.
    destruct (strptime (start_date c)) as [s|];
      destruct (strptime (end_date c)) as [e|]; cbn;
      split; try done; try (intros; tauto); intros [|]; done.
  - intros x. unfold duration_days, parse.
    destruct (strptime (start_date c)) as [s|];
      destruct (strptime (end_date c)) as [e|]; cbn;
      intros H; by simplify_eq.
  - done.
Qed.

Lemma duration_days_spec_witness :
  duration_days iso_strptime python_course = Ok 90 ∧
  duration_days iso_strptime reversed_course = Ok (-90) ∧
  date_lt (mkDate 2025 1 10) (mkDate 2025 4 10) ∧
  duration_days iso_strptime undated_course =
    Raise (ValueError "Invalid date format. Use 'YYYY-MM-DD'.").
Proof.
  destruct (duration_days_spec iso_strptime python_course) as (Hfwd & _).
  destruct (duration_days_spec iso_strptime reversed_course) as (Hback & _).
  destruct (duration_days_spec iso_strptime undated_course) as (_ & Hbad & _).
  destruct (Hfwd (mkDate 2025 1 10) (mkDate 2025 4 10) eq_refl eq_refl)
    as [Hfwd1 _].
  destruct (Hback (mkDate 2025 4 10) (mkDate 2025 1 10) eq_refl eq_refl)
    as [Hback1 Hback2].
  split; [exact Hfwd1|]. split; [exact Hback1|]. split.
  - apply Hback2; [| |reflexivity]; vm_compute; intuition discriminate.
  - apply Hbad. left. reflexivity.
Defined.

(** The strict reader only returns dates of the calendar. *)
Lemma digit_range (a : ascii) (n : Z) : digit a = Some n → 0 ≤ n ≤ 9.
Proof.
  unfold digit.
  destruct (Z.leb_spec 48 (Z.of_nat (nat_of_ascii a))),
    (Z.leb_spec (Z.of_nat (nat_of_ascii a)) 57); simpl;
    intros; simplify_eq; lia.
Qed.

Lemma iso_strptime_valid (s : string) (d : date) :
  iso_strptime s = Some d → valid_date d.
Proof.
  unfold iso_strptime.
  generalize (String.list_ascii_of_string s) as l. intros l.
  destruct l as [|y1 [|y2 [|y3 [|y4 [|h1 [|m1 [|m2 [|h2 [|d1 [|d2 [|x l]]]]]]]]]]];
    try discriminate.
  case_bool_decide; [|discriminate].
  destruct (digit y1) as [a1|] eqn:E1; [|discriminate].
  destruct (digit y2) as [a2|] eqn:E2; [|discriminate].
  destruct (digit y3) as [a3|] eqn:E3; [|discriminate].
  destruct (digit y4) as [a4|] eqn:E4; [|discriminate].
  destruct (digit m1) as [b1|] eqn:E5; [|discriminate].
  destruct (digit m2) as [b2|] eqn:E6; [|discriminate].
  destruct (digit d1) as [c1|] eqn:E7; [|discriminate].
  destruct (digit d2) as [c2|] eqn:E8; [|discriminate].
  cbn.
  apply digit_range in E1, E2, E3, E4.
  match goal with |- context [if ?b then _ else _] => destruct b eqn:Hb end;
    [|discriminate].
  intros [= <-]. rewrite !andb_true_iff, !Z.leb_le in Hb.
  unfold valid_date. cbn in *. lia.
Qed.

(** ** [remove_course] *)

Lemma first_index_Some (t : string) (cs : list Course) (i j : nat) :
  first_index t cs i = Some j →
  ∃ l1 c l2, cs = l1 ++ c :: l2 ∧ title c = t ∧
             Forall (λ x, title x ≠ t) l1 ∧ j = (i + length l1)%nat.
Proof.
  revert i. induction cs as [|c cs IH]; intros i; simpl; [discriminate|].
  case_bool_decide as Hc.
  - intros [= <-]. exists [], c, cs. simpl. repeat split; auto with lia.
  - intros H. destruct (IH _ H) as (l1 & c' & l2 & -> & Ht & Hl1 & ->).
    exists (c :: l1), c', l2. simpl. repeat split; auto with lia.
Qed.

Lemma first_index_None (t : string) (cs : list Course) (i : nat) :
  first_index t cs i = None ↔ Forall (λ x, title x ≠ t) cs.
Proof.
  revert i. induction cs as [|c cs IH]; intros i; simpl.
  - split; [constructor | done].
  - case_bool_decide as Hc.
    + split; [discriminate|]. intros H. inversion H; subst. done.
    + rewrite IH. split; [by constructor|]. intros H. by inversion H.
Qed.

(** [find_course] returns the course that [remove_course] would take out. *)
Lemma find_course_first (p : Platform) (t : string) (c : Course) :
  find_course p t = Some c →
  ∃ l1 l2, courses p = l1 ++ c :: l2 ∧ title c = t ∧
           Forall (λ x, title x ≠ t) l1.
Proof.
  unfold find_course.
  destruct (first_index t (courses p) 0) as [j|] eqn:Hj; [|discriminate].
  destruct (first_index_Some _ _ _ _ Hj) as (l1 & c' & l2 & Hcs & Ht & Hl1 & ->).
  rewrite Hcs. simpl. rewrite list_lookup_middle by done.
  intros [= <-]. by exists l1, l2.
Qed.

(** C8: [remove_course] returns true exactly when some course has the
    title; it then takes out the first such course and nothing else, so
    the list is one shorter and the others keep their order; otherwise it
    returns false and the platform is as before. *)
Theorem remove_course_spec (p : Platform) (t : string) :
  let found := (remove_course p t).1 in
  let p' := (remove_course p t).2 in
  name p' = name p ∧
  (found = true ↔ ∃ c, c ∈ courses p ∧ title c = t) ∧
  (found = true →
     ∃ l1 c l2, courses p = l1 ++ c :: l2 ∧ title c = t ∧
                Forall (λ x, title x ≠ t) l1 ∧
                courses p' = l1 ++ l2 ∧
                length (courses p) = S (length (courses p'))) ∧
  (found = false → p' = p).
Proof.
  unfold remove_course.
  destruct (first_index t (courses p) 0) as [j|] eqn:Hj; simpl.
  - destruct (first_index_Some _ _ _ _ Hj) as (l1 & c & l2 & Hcs & Ht & Hl1 & ->).
    simpl. rewrite Hcs, delete_middle.
    repeat split; try done.
    + intros _. exists c. split; [|done].
      apply elem_of_app. right. by left.
    + intros _. exists l1, c, l2. repeat split; try done.
      rewrite !length_app. simpl. lia.
  - apply first_index_None in Hj. rewrite Forall_forall in Hj.
    repeat split; try done.
    intros (c & Hin & Ht). by destruct (Hj c Hin).
Qed.

Lemma remove_course_spec_witness :
  (remove_course ranking_platform "Botany").1 = true ∧
  title <$> courses (remove_course ranking_platform "Botany").2 =
    ["Algebra"; "Chemistry"; "Drawing"] ∧
  (remove_course ranking_platform "Zoology").2 = ranking_platform.
Proof.
  split; [reflexivity|]. split; [reflexivity|].
  apply (remove_course_spec ranking_platform "Zoology"). reflexivity.
Defined.

(** ** [sorted] and [get_most_popular] *)

Section SortedFacts.

Context {A : Type} (key : A → Z).

Implicit Types (x y : A) (l : list A) (k : Z).

Lemma insert_desc_perm x l : insert_desc key x l ≡ₚ x :: l.
Proof.
  induction l as [|y l IH]; simpl; [done|].
  destruct (key y <=? key x); [done|].
  rewrite IH. apply Permutation_swap.
Qed.

Lemma sorted_desc_perm l : sorted_desc key l ≡ₚ l.
Proof.
  induction l as [|x l IH]; simpl; [done|].
  by rewrite insert_desc_perm, IH.
Qed.

Lemma sorted_desc_length l : length (sorted_desc key l) = length l.
Proof. by rewrite sorted_desc_perm. Qed.

Lemma insert_desc_descending x l :
  descending key l → descending key (insert_desc key x l).
Proof.
  unfold descending.
  induction l as [|y l IH]; simpl; intros Hl.
  - repeat constructor.
  - apply StronglySorted_inv in Hl as [Hl Hy].
    destruct (Z.leb_spec (key y) (key x)).
    + constructor; [by constructor|].
      constructor; [done|].
      eapply Forall_impl; [exact Hy|]. simpl. lia.
    + constructor; [by apply IH|].
      rewrite insert_desc_perm. constructor; [lia | done].
Qed.

Lemma sorted_desc_descending l : descending key (sorted_desc key l).
Proof.
  induction l as [|x l IH]; simpl; [constructor|].
  by apply insert_desc_descending.
Qed.

Lemma with_key_cons k x l :
  with_key key k (x :: l) =
    if decide (key x = k) then x :: with_key key k l else with_key key k l.
Proof. unfold with_key. by rewrite filter_cons. Qed.

(** Insertion moves [x] only past elements with a different key. *)
Lemma insert_desc_stable k x l :
  with_key key k (insert_desc key x l) = with_key key k (x :: l).
Proof.
  induction l as [|y l IH]; simpl; [done|].
  destruct (Z.leb_spec (key y) (key x)); [done|].
  rewrite (with_key_cons k y), IH, !with_key_cons.
  repeat case_decide; done || lia.
Qed.

(** Stability: courses with one and the same key keep their order. *)
Lemma sorted_desc_stable k l :
  with_key key k (sorted_desc key l) = with_key key k l.
Proof.
  induction l as [|x l IH]; simpl; [done|].
  by rewrite insert_desc_stable, !with_key_cons, IH.
Qed.

Lemma with_key_elem k x l : x ∈ with_key key k l ↔ x ∈ l ∧ key x = k.
Proof. unfold with_key. rewrite list_elem_of_filter. tauto. Qed.

(** Descending order together with stability leaves one arrangement
    only, so [sorted_desc] is what any stable descending sort returns. *)
Lemma descending_stable_unique l1 l2 :
  descending key l1 → descending key l2 →
  (∀ k, with_key key k l1 = with_key key k l2) →
  l1 = l2.
Proof.
  unfold descending. revert l2.
  induction l1 as [|x l1 IH]; intros l2 H1 H2 Hk.
  - destruct l2 as [|y l2]; [done|].
    specialize (Hk (key y)). rewrite with_key_cons in Hk.
    by rewrite decide_True in Hk.
  - destruct l2 as [|y l2].
    { specialize (Hk (key x)). rewrite with_key_cons in Hk.
      by rewrite decide_True in Hk. }
    apply StronglySorted_inv in H1 as [H1 Hx].
    apply StronglySorted_inv in H2 as [H2 Hy].
    rewrite Forall_forall in Hx, Hy.
    assert (key y ≤ key x) as Hyx.
    { assert (y ∈ with_key key (key y) (x :: l1)) as Hin.
      { rewrite Hk, with_key_cons, decide_True by done. by left. }
      apply with_key_elem in Hin as [Hin _].
      apply elem_of_cons in Hin as [->|Hin]; [lia | by apply Hx]. }
    assert (key x ≤ key y) as Hxy.
    { assert (x ∈ with_key key (key x) (y :: l2)) as Hin.
      { rewrite <- Hk, with_key_cons, decide_True by done. by left. }
      apply with_key_elem in Hin as [Hin _].
      apply elem_of_cons in Hin as [->|Hin]; [lia | by apply Hy]. }
    assert (key x = key y) as Hkey by lia.
    pose proof (Hk (key x)) as Hhead.
    rewrite !with_key_cons, !decide_True in Hhead by done.
    injection Hhead as -> Htail. f_equal.
    apply IH; [done..|].
    intros k. specialize (Hk k). rewrite !with_key_cons in Hk.
    case_decide; [|done]. subst k. done.
Qed.

Lemma sorted_desc_unique l l' :
  descending key l' →
  (∀ k, with_key key k l' = with_key key k l) →
  l' = sorted_desc key l.
Proof.
  intros Hd Hs. apply descending_stable_unique;
    [done | apply sorted_desc_descending |].
  intros k. by rewrite sorted_desc_stable.
Qed.

End SortedFacts.

Lemma slice_to_prefix {A} (l : list A) (n : Z) : slice_to l n `prefix_of` l.
Proof. unfold slice_to. destruct (n <? 0); apply prefix_take. Qed.

Lemma slice_to_len {A} (l : list A) (n : Z) :
  (0 ≤ n → len (slice_to l n) = Z.min n (len l)) ∧
  (n < 0 → len (slice_to l n) = Z.max 0 (len l + n)).
Proof.
  unfold slice_to, len.
  destruct (Z.ltb_spec n 0); (split; [|]); intros ?; try lia;
    rewrite length_take; lia.
Qed.

(** C4, as stated, at the ranking scenario with n = -1: the result is not
    empty, it is the ranking without its last course. *)
Lemma get_most_popular_negative :
  title <$> get_most_popular ranking_platform (Some (-1)) =
    ["Chemistry"; "Algebra"; "Drawing"] ∧
  get_most_popular ranking_platform (Some (-1)) ≠ [].
Proof. split; [reflexivity | discriminate]. Qed.

(** C4 (amended): [get_most_popular] returns a leading part of the
    ranking, the arrangement of the courses by descending number of
    students in which courses with equal numbers keep their insertion
    order.  With n courses asked for (3 when n is left out), the part has
    min(n, total) courses for n ≥ 0, so none for n = 0 and all of them for
    n ≥ total; for n < 0 it is the ranking without its last -n courses,
    max(0, total + n) of them. *)
Theorem get_most_popular_spec (p : Platform) (n : option Z) :
  let key := λ c : Course, len (students c) in
  let k := default 3 n in
  let total := len (courses p) in
  let r := get_most_popular p n in
  ∃ ranking,
    ranking ≡ₚ courses p ∧
    descending key ranking ∧
    (∀ v, with_key key v ranking = with_key key v (courses p)) ∧
    r `prefix_of` ranking ∧
    (0 ≤ k → len r = Z.min k total) ∧
    (k = 0 → r = []) ∧
    (total ≤ k → r = ranking) ∧
    (k < 0 → len r = Z.max 0 (total + k)).
Proof.
  intros key k total r.
  exists (sorted_desc key (courses p)).
  pose proof (slice_to_len (sorted_desc key (courses p)) k) as [Hpos Hneg].
  assert (len (sorted_desc key (courses p)) = total) as Hlen.
  { unfold len, total. by rewrite sorted_desc_length. }
  rewrite Hlen in Hpos, Hneg.
  split; [apply sorted_desc_perm|].
  split; [apply sorted_desc_descending|].
  split; [intros v; apply sorted_desc_stable|].
  split; [apply slice_to_prefix|].
  split; [exact Hpos|].
  split; [|split; [|exact Hneg]].
  - intros Hk. assert (len r = 0) as H0.
    { unfold r, get_most_popular. fold key k. rewrite Hpos; [|lia].
      pose proof (len_nonneg (courses p)). unfold total. lia. }
    destruct r; [done|]. unfold len in H0. simpl in H0. lia.
  - intros Hk. unfold r, get_most_popular. fold key k.
    unfold slice_to. pose proof (len_nonneg (courses p)).
    destruct (Z.ltb_spec k 0); [unfold total in *; lia|].
    apply take_ge. unfold total, len in Hlen, Hk. lia.
Qed.

Lemma get_most_popular_spec_witness :
  title <$> get_most_popular ranking_platform (Some 2) =
    ["Chemistry"; "Algebra"] ∧
  title <$> get_most_popular ranking_platform None =
    ["Chemistry"; "Algebra"; "Drawing"] ∧
  get_most_popular ranking_platform (Some 0) = [] ∧
  len (get_most_popular ranking_platform (Some 9)) = 4.
Proof.
  split; [reflexivity|]. split; [reflexivity|].
  destruct (get_most_popular_spec ranking_platform (Some 0))
    as (ranking & _ & _ & _ & _ & _ & Hzero & _).
  destruct (get_most_popular_spec ranking_platform (Some 9))
    as (ranking' & _ & _ & _ & _ & Hlen & _).
  split; [apply Hzero; reflexivity|].
  apply Hlen. vm_compute. discriminate.
Defined.

(** ** [load_from_json] *)

Section JsonFacts.

Variable json_load : string → option value.

(** Whatever happens, the course list is either replaced as a whole by
    a successful load or left as it was; nothing is printed unless the
    file is missing or its text is not a JSON document. *)
Lemma load_from_json_cases (p : Platform) (filename : string) (w : world) :
  let '(r, p', w') := load_from_json json_load p filename w in
  (∃ cs, r = Ok () ∧ p' = set_courses p cs ∧ w' = w) ∨
  (r = Ok () ∧ p' = p ∧ ∃ line, w' = print w line) ∨
  (∃ e, r = Raise e ∧ p' = p ∧ w' = w).
Proof.
  unfold load_from_json.
  destruct (_ ≫= _) as [cs|[]]; eauto 10.
Qed.

(** Loading what [save_to_json] wrote, when the decoder reads back the
    document that the encoder printed: the courses return in order, each
    without its discriminating attribute. *)
Lemma load_after_save (json_dump : value → string)
    (p q : Platform) (filename : string) (w : world) :
  let doc := VList ((λ c, VDict (to_dict c)) <$> courses p) in
  json_load (json_dump doc) = Some doc →
  load_from_json json_load q filename (save_to_json json_dump p filename w) =
    (Ok (),
     set_courses q ((λ c, set_cls c (forget_attr (cls c))) <$> courses p),
     save_to_json json_dump p filename w).
Proof.
  intros doc Hround.
  assert (∀ l, comprehension from_dict_item ((λ c, VDict (to_dict c)) <$> l) =
               Ok ((λ c, set_cls c (forget_attr (cls c))) <$> l)) as Hall.
  { intros l. induction l as [|c cs IH]; [done|].
    rewrite !fmap_cons. cbn [comprehension from_dict_item].
    by rewrite from_dict_to_dict, IH. }
  unfold load_from_json, save_to_json, read_text, decode.
  cbn [files]. fold doc. rewrite lookup_insert_eq, bind_Ok, Hround, bind_Ok.
  unfold doc. cbn [iterate]. by rewrite bind_Ok, Hall.
Qed.

End JsonFacts.

(** C6, as stated, at a file whose bytes are not UTF-8 text: reading it
    raises [UnicodeDecodeError], which neither [except] clause catches, so
    the failure leaves [load_from_json] as an exception and no line is
    printed. *)
Lemma load_from_json_not_utf8 :
  files sample_world !! "latin1.json" = None ∧
  "latin1.json" ∈ not_text sample_world ∧
  load_from_json sample_json_load ranking_platform "latin1.json" sample_world =
    (Raise UnicodeDecodeError, ranking_platform, sample_world).
Proof.
  split; [reflexivity|]. split; [by vm_compute|].
  unfold load_from_json, read_text.
  replace (files sample_world !! "latin1.json") with (@None string)
    by reflexivity.
  rewrite bool_decide_eq_true_2 by (by vm_compute).
  reflexivity.
Qed.

(** C6 (amended): [load_from_json] on a name with no file, or on a file
    whose text is not a JSON document, returns normally after printing one
    line and leaves the platform as it was; on a file whose bytes are not
    UTF-8 text the [UnicodeDecodeError] reaches the caller, nothing is
    printed and the platform is as it was too; on a document that is a
    list of records accepted by [from_dict], it replaces the course list
    by the courses of those records, in the order of the document. *)
Theorem load_from_json_spec (json_load : string → option value)
    (p : Platform) (filename : string) (w : world) :
  (files w !! filename = None → filename ∉ not_text w →
     load_from_json json_load p filename w =
       (Ok (), p, print w ("File " +:+ filename +:+ " not found."))) ∧
  (∀ text, files w !! filename = Some text → json_load text = None →
     load_from_json json_load p filename w =
       (Ok (), p, print w ("Error reading JSON from " +:+ filename +:+ "."))) ∧
  (files w !! filename = None → filename ∈ not_text w →
     load_from_json json_load p filename w = (Raise UnicodeDecodeError, p, w)) ∧
  (∀ text items cs,
     files w !! filename = Some text →
     json_load text = Some (VList items) →
     Forall2 (λ item c, ∃ d, item = VDict d ∧ from_dict d = Ok c) items cs →
     load_from_json json_load p filename w = (Ok (), set_courses p cs, w)).
Proof.
  unfold load_from_json, read_text, decode. repeat split.
  - intros -> Hfile. by rewrite bool_decide_eq_false_2.
  - intros text Hfile Hdoc. by rewrite Hfile, bind_Ok, Hdoc.
  - intros -> Hfile. by rewrite bool_decide_eq_true_2.
  - intros text items cs Hfile Hdoc Hitems.
    rewrite Hfile, bind_Ok, Hdoc, bind_Ok. cbn [iterate]. rewrite bind_Ok.
    assert (comprehension from_dict_item items = Ok cs) as ->; [|done].
    apply comprehension_Ok.
    eapply Forall2_impl; [exact Hitems|].
    by intros item c (d & -> & Hd).
Qed.

Lemma load_from_json_spec_witness :
  let p := ranking_platform in
  load_from_json sample_json_load p "missing.json" sample_world =
    (Ok (), p, print sample_world "File missing.json not found.") ∧
  load_from_json sample_json_load p "broken.json" sample_world =
    (Ok (), p, print sample_world "Error reading JSON from broken.json.") ∧
  load_from_json sample_json_load p "latin1.json" sample_world =
    (Raise UnicodeDecodeError, p, sample_world) ∧
  load_from_json sample_json_load p "platform_data.json" sample_world =
    (Ok (),
     mkPlatform "SuperLearn"
       [mkCourse (ProgrammingCourse "") "Python for Beginners" "Ivanov I.I."
          "2025-01-10" "2025-04-10" 30 []],
     sample_world).
Proof.
  intros p. split; [|split; [|split]].
  - apply (load_from_json_spec sample_json_load p "missing.json" sample_world);
      [reflexivity|].
    intros Hin. vm_compute in Hin. discriminate Hin.
  - apply (load_from_json_spec sample_json_load p "broken.json" sample_world)
      with (text := "[{"); reflexivity.
  - apply (load_from_json_spec sample_json_load p "latin1.json" sample_world);
      [reflexivity|].
    by vm_compute.
  - apply (load_from_json_spec sample_json_load p "platform_data.json"
             sample_world)
      with (text := records_text) (items := [VDict bare_programming_record]);
      [reflexivity | reflexivity |].
    constructor; [|constructor].
    exists bare_programming_record. split; reflexivity.
Defined.

(** * Further properties *)

(** ** Enrolment is first come, first served *)

Lemma set_students_same (c : Course) : set_students c (students c) = c.
Proof. by destruct c. Qed.

Lemma set_students_twice (c : Course) (l1 l2 : list string) :
  set_students (set_students c l1) l2 = set_students c l2.
Proof. reflexivity. Qed.

Lemma add_students_eq (c : Course) (names : list string) :
  let room := Z.to_nat (max_students c - len (students c)) in
  let refused :=
    Raise (CourseFullError ("Course '" +:+ title c +:+ "' is full.")) in
  add_students c names =
    (replicate (room `min` length names) (Ok ()) ++
       replicate (length names - room) refused,
     set_students c (students c ++ take room names)).
Proof.
  revert c. induction names as [|name rest IH]; intros c room refused.
  - cbn [add_students length].
    rewrite Nat.min_0_r, take_nil, (app_nil_r (students c)).
    by rewrite set_students_same.
  - cbn [add_students]. unfold add_student.
    destruct (Z.geb_spec (len (students c)) (max_students c)) as [Hfull|Hroom].
    + rewrite IH. fold room refused.
      assert (room = 0%nat) as -> by (unfold room; lia).
      simpl. by rewrite !Nat.sub_0_r.
    + rewrite IH. cbn [title max_students students set_students].
      rewrite len_app. change (len [name]) with 1.
      assert (room = S (Z.to_nat (max_students c - (len (students c) + 1))))
        as Hr by (unfold room; lia).
      fold refused. rewrite Hr. cbn [take length Nat.min Nat.sub replicate app].
      by rewrite <- app_assoc.
Qed.

(** Once a call has been refused, every later call is refused too: the
    class has no operation that frees a place. *)
Lemma add_student_refused_stays (c : Course) (name : string)
    (names : list string) (later : string) :
  (add_student c name).1 ≠ Ok () →
  add_student (add_students c names).2 later = add_student c later.
Proof.
  unfold add_student at 1.
  destruct (Z.geb_spec (len (students c)) (max_students c)) as [Hfull|?];
    [intros _|done].
  rewrite add_students_eq. cbn [snd].
  replace (Z.to_nat _) with 0%nat by lia.
  by rewrite take_0, app_nil_r, set_students_same.
Qed.

(** Whatever the course, a sequence of [add_student] calls enrols the
    first names up to the free room and refuses all the later ones with
    the same [CourseFullError]; the list grows at its end only, nothing
    else of the course changes, and once a call has been refused every
    later call is refused as well. *)
Theorem add_students_served (c : Course) (names : list string) :
  let room := Z.to_nat (max_students c - len (students c)) in
  let refused :=
    Raise (CourseFullError ("Course '" +:+ title c +:+ "' is full.")) in
  add_students c names =
    (replicate (room `min` length names) (Ok ()) ++
       replicate (length names - room) refused,
     set_students c (students c ++ take room names)) ∧
  (∀ name later,
     (add_student c name).1 ≠ Ok () →
     add_student (add_students c names).2 later = (refused, c)).
Proof.
  intros room refused. split; [apply add_students_eq|].
  intros name later Hrefused.
  rewrite (add_student_refused_stays c name names later Hrefused).
  revert Hrefused. unfold add_student.
  by destruct (len (students c) >=? max_students c).
Qed.

Lemma add_students_served_witness :
  add_students small_course ["A"; "B"; "C"; "D"] =
    ([Ok (); Ok ();
      Raise (CourseFullError "Course 'Small' is full.");
      Raise (CourseFullError "Course 'Small' is full.")],
     set_students small_course ["A"; "B"]) ∧
  add_student (add_students overfull_course ["C"]).2 "D" =
    (Raise (CourseFullError "Course 'Small' is full."), overfull_course).
Proof.
  split; [apply (add_students_served small_course ["A"; "B"; "C"; "D"])|].
  destruct (add_students_served overfull_course ["C"]) as [_ Hlater].
  apply (Hlater "C" "D"). vm_compute. discriminate.
Defined.

(** ** Completion rate and enrolment *)

(** An accepted enrolment never lowers the completion rate, and the rate
    it leaves is between 0 and 100: a call is only accepted below the
    capacity, so the list it leaves is within the capacity. *)
Theorem completion_rate_accepted (c c' : Course) (name : string) :
  add_student c name = (Ok (), c') →
  (completion_rate c <= completion_rate c')%Q ∧
  (0 <= completion_rate c')%Q ∧ (completion_rate c' <= 100)%Q.
Proof.
  unfold add_student.
  destruct (Z.geb_spec (len (students c)) (max_students c)) as [|Hroom];
    [discriminate|].
  intros [= <-]. pose proof (len_nonneg (students c)) as Hlen.
  split.
  - unfold completion_rate. cbn [max_students students set_students].
    destruct (Z.eqb_spec (max_students c) 0) as [|Hne]; [lia|].
    rewrite len_app. change (len [name]) with 1.
    destruct (max_students c) as [|m|m] eqn:Hm; [lia| |lia].
    unfold Qle, Qdiv, Qmult, Qinv, inject_Z. simpl. nia.
  - apply completion_rate_range. cbn [max_students students set_students].
    rewrite len_app. change (len [name]) with 1. lia.
Qed.

Lemma completion_rate_accepted_witness :
  (completion_rate small_course <=
   completion_rate (add_student small_course "A").2)%Q ∧
  (completion_rate (add_student small_course "A").2 <= 100)%Q.
Proof.
  destruct (completion_rate_accepted small_course
              (add_student small_course "A").2 "A" eq_refl)
    as (Hup & _ & Htop).
  split; [exact Hup | exact Htop].
Defined.

(** For a course with a positive capacity that is not exceeded, the rate
    is 100 exactly when the next [add_student] is refused. *)
Theorem completion_rate_full_iff (c : Course) (name : string) :
  0 < max_students c →
  len (students c) ≤ max_students c →
  (completion_rate c == 100)%Q ↔ (add_student c name).1 ≠ Ok ().
Proof.
  intros Hpos Hle. unfold add_student, completion_rate.
  destruct (Z.eqb_spec (max_students c) 0) as [|_]; [lia|].
  destruct (max_students c) as [|m|m] eqn:Hm; [lia| |lia].
  unfold Qeq, Qdiv, Qmult, Qinv, inject_Z. simpl.
  destruct (Z.geb_spec (len (students c)) (Z.pos m)); simpl.
  - split; [done|]. intros _. nia.
  - split; [|done]. intros Heq. nia.
Qed.

Lemma completion_rate_full_iff_witness :
  (completion_rate (add_students small_course ["A"; "B"]).2 == 100)%Q ↔
  (add_student (add_students small_course ["A"; "B"]).2 "C").1 ≠ Ok ().
Proof.
  apply (completion_rate_full_iff (add_students small_course ["A"; "B"]).2 "C");
    [reflexivity | vm_compute; discriminate].
Defined.

(** ** Durations compose *)

Lemma duration_days_Ok (strptime : string → option date) (c : Course) (n : Z) :
  duration_days strptime c = Ok n ↔
  ∃ s e, strptime (start_date c) = Some s ∧ strptime (end_date c) = Some e ∧
         n = toordinal e - toordinal s.
Proof.
  unfold duration_days, parse.
  destruct (strptime (start_date c)) as [s|];
    destruct (strptime (end_date c)) as [e|]; cbn.
  - split; [intros [= <-]; eauto | intros (? & ? & [= <-] & [= <-] & ->); done].
  - split; [done | intros (? & ? & _ & [=] & _)].
  - split; [done | intros (? & ? & [=] & _)].
  - split; [done | intros (? & ? & [=] & _)].
Qed.

(** A course whose dates are those of [c] exchanged lasts the negated
    number of days, and a course that runs from the start of [c1] to the
    end of [c2], where [c2] starts on the day [c1] ends, lasts the sum of
    the two durations. *)
Theorem duration_days_compose (strptime : string → option date)
    (c1 c2 c3 : Course) (n1 n2 : Z) :
  duration_days strptime c1 = Ok n1 →
  duration_days strptime c2 = Ok n2 →
  (start_date c3 = end_date c1 → end_date c3 = start_date c1 →
     duration_days strptime c3 = Ok (- n1)) ∧
  (end_date c1 = start_date c2 →
   start_date c3 = start_date c1 → end_date c3 = end_date c2 →
     duration_days strptime c3 = Ok (n1 + n2)).
Proof.
  rewrite !duration_days_Ok.
  intros (s1 & e1 & Hs1 & He1 & ->) (s2 & e2 & Hs2 & He2 & ->). split.
  - intros Hs He. exists e1, s1. rewrite Hs, He. repeat split; [done..|lia].
  - intros Hmid Hs He. exists s1, e2. rewrite Hs, He.
    repeat split; [done..|].
    rewrite Hmid, Hs2 in He1. injection He1 as <-. lia.
Qed.

Lemma duration_days_compose_witness :
  duration_days iso_strptime reversed_course = Ok (- 90) ∧
  duration_days iso_strptime
    (Course_init "Both" "Ivanov I.I." "2025-01-10" "2025-05-01" 5) =
    Ok (90 + 21).
Proof.
  split.
  - apply (duration_days_compose iso_strptime python_course python_course
             reversed_course 90 90); reflexivity.
  - apply (duration_days_compose iso_strptime python_course
             (Course_init "Rest" "Ivanov I.I." "2025-04-10" "2025-05-01" 5)
             _ 90 21); reflexivity.
Defined.

(** ** More on the codec *)

Lemma as_str_Ok (field : string) (v : value) (s : string) :
  as_str field v = Ok s ↔ v = VStr s.
Proof. destruct v; simpl; split; congruence. Qed.

Lemma as_int_Ok (field : string) (v : value) (n : Z) :
  as_int field v = Ok n ↔ v = VInt n.
Proof. destruct v; simpl; split; congruence. Qed.

Lemma as_str_list_Ok (field : string) (v : value) (l : list string) :
  as_str_list field v = Ok l ↔ v = VList (VStr <$> l).
Proof.
  split; [|intros ->; apply as_str_list_strings].
  destruct v as [| | | |vs|]; simpl; try discriminate.
  rewrite comprehension_Ok. intros H. f_equal.
  induction H as [|v s vs l Hv _ IH]; [done|].
  apply as_str_Ok in Hv. rewrite fmap_cons. congruence.
Qed.

(** [from_dict] in one pass: the five lookups, the typing of their values,
    the class chosen by the tag, the student list. *)
Lemma from_dict_unfold (data : dict) :
  from_dict data =
    (t ← getitem data "title";
     i ← getitem data "instructor";
     s ← getitem data "start_date";
     e ← getitem data "end_date";
     m ← getitem data "max_students";
     init ← call_init mkCourse' t i s e m;
     k ← match tag_attr (data !! "type") with
         | Some (key, mk) => mk <$> as_str key (get data key (VStr ""))
         | None => Ok BaseCourse
         end;
     init k <$> as_str_list "students" (get data "students" (VList []))).
Proof.
  unfold from_dict, tag_attr, getitem, call_init, mkCourse'.
  repeat (case (eq_str _ _));
    (destruct (data !! "title") as [?|]; cbn; [|reflexivity]);
    (destruct (data !! "instructor") as [?|]; cbn; [|reflexivity]);
    (destruct (data !! "start_date") as [?|]; cbn; [|reflexivity]);
    (destruct (data !! "end_date") as [?|]; cbn; [|reflexivity]);
    (destruct (data !! "max_students") as [?|]; cbn; [|reflexivity]);
    repeat (match goal with
            | |- context [as_str ?f ?v] => destruct (as_str f v); cbn
            | |- context [as_int ?f ?v] => destruct (as_int f v); cbn
            end; try reflexivity);
    destruct (as_str_list _ _); reflexivity.
Qed.

(** What an accepted record must have held. *)
Lemma from_dict_Ok_inv (data : dict) (c : Course) :
  from_dict data = Ok c →
  has_fields data (title c) (instructor c) (start_date c) (end_date c)
    (max_students c) ∧
  get data "students" (VList []) = VList (VStr <$> students c) ∧
  match tag_attr (data !! "type") with
  | Some (key, mk) =>
      ∃ a, get data key (VStr "") = VStr a ∧ cls c = mk a
  | None => cls c = BaseCourse
  end.
Proof.
  rewrite from_dict_unfold. unfold getitem, call_init, has_fields.
  destruct (data !! "title") as [t|]; cbn; [|discriminate].
  destruct (data !! "instructor") as [i|]; cbn; [|discriminate].
  destruct (data !! "start_date") as [s|]; cbn; [|discriminate].
  destruct (data !! "end_date") as [e|]; cbn; [|discriminate].
  destruct (data !! "max_students") as [m|]; cbn; [|discriminate].
  destruct (as_str "title" t) as [t'|] eqn:Ht; cbn; [|discriminate].
  destruct (as_str "instructor" i) as [i'|] eqn:Hi; cbn; [|discriminate].
  destruct (as_str "start_date" s) as [s'|] eqn:Hs; cbn; [|discriminate].
  destruct (as_str "end_date" e) as [e'|] eqn:He; cbn; [|discriminate].
  destruct (as_int "max_students" m) as [m'|] eqn:Hm; cbn; [|discriminate].
  apply as_str_Ok in Ht, Hi, Hs, He. apply as_int_Ok in Hm. subst.
  destruct (tag_attr (data !! "type")) as [[key mk]|].
  - destruct (as_str key _) as [a|] eqn:Ha; cbn; [|discriminate].
    destruct (as_str_list _ _) as [studs|] eqn:Hst; cbn; [|discriminate].
    apply as_str_Ok in Ha. apply as_str_list_Ok in Hst.
    intros [= <-]. cbn. repeat split; eauto.
  - cbn. destruct (as_str_list _ _) as [studs|] eqn:Hst; cbn; [|discriminate].
    apply as_str_list_Ok in Hst.
    intros [= <-]. cbn. repeat split; eauto.
Qed.

Lemma tag_attr_known (tag : option value) :
  match tag_attr tag with
  | Some (key, mk) =>
      known_tag tag ∧ key ∈ attr_fields ∧ tag = Some (VStr (class_name (mk "")))
      ∧ ∀ a, class_name (mk a) = class_name (mk "")
  | None => ¬ known_tag tag
  end.
Proof.
  unfold tag_attr, known_tag, attr_fields.
  destruct (eq_str tag "ProgrammingCourse") eqn:E1.
  { apply eq_str_true in E1. repeat split; [tauto | in_list | done]. }
  destruct (eq_str tag "DesignCourse") eqn:E2.
  { apply eq_str_true in E2. repeat split; [tauto | in_list | done]. }
  destruct (eq_str tag "ScienceCourse") eqn:E3.
  { apply eq_str_true in E3. repeat split; [tauto | in_list | done]. }
  apply eq_str_false in E1, E2, E3. tauto.
Qed.

(** Writing out a course that [from_dict] accepted gives back the required
    fields and the student list of the record it came from, keeps a known
    tag, turns an unknown or missing tag into "Course", and holds no
    discriminating attribute even when the record had one. *)
Theorem to_dict_from_dict (data : dict) (c : Course) :
  from_dict data = Ok c →
  (∀ k, k ∈ required_fields → to_dict c !! k = data !! k) ∧
  to_dict c !! "students" = Some (get data "students" (VList [])) ∧
  (known_tag (data !! "type") → to_dict c !! "type" = data !! "type") ∧
  (¬ known_tag (data !! "type") → to_dict c !! "type" = Some (VStr "Course")) ∧
  (∀ k, k ∈ attr_fields → to_dict c !! k = None).
Proof.
  intros H. apply from_dict_Ok_inv in H as ((Ht & Hi & Hs & He & Hm) & Hst & Hk).
  destruct (to_dict_lookup c) as (Htype & (Ht' & Hi' & Hs' & He' & Hm') & Hst').
  split; [|split; [|split; [|split]]].
  - intros k Hk'. unfold required_fields in Hk'.
    rewrite !elem_of_cons, elem_of_nil in Hk'.
    destruct Hk' as [->|[->|[->|[->|[->|[]]]]]]; congruence.
  - congruence.
  - intros Hknown. rewrite Htype.
    pose proof (tag_attr_known (data !! "type")) as Hta.
    destruct (tag_attr (data !! "type")) as [[key mk]|]; [|tauto].
    destruct Hk as (a & _ & ->), Hta as (_ & _ & -> & Hname).
    by rewrite Hname.
  - intros Hunknown. rewrite Htype.
    pose proof (tag_attr_known (data !! "type")) as Hta.
    destruct (tag_attr (data !! "type")) as [[key mk]|]; [tauto|].
    by rewrite Hk.
  - apply to_dict_no_attr.
Qed.

Lemma to_dict_from_dict_witness :
  ∃ c, from_dict untagged_record = Ok c ∧
       to_dict c !! "type" = Some (VStr "Course") ∧
       to_dict c !! "language" = None ∧
       to_dict c !! "title" = untagged_record !! "title".
Proof.
  eexists. split; [reflexivity|].
  destruct (to_dict_from_dict untagged_record _ eq_refl)
    as (Hreq & _ & _ & Htag & Hattr).
  split; [|split].
  - apply Htag. intros [H|[H|H]]; vm_compute in H; discriminate H.
  - apply Hattr. unfold attr_fields. in_list.
  - apply Hreq. unfold required_fields. in_list.
Defined.

Lemma as_str_list_Raise (field : string) (v : value) (e : exn) :
  as_str_list field v = Raise e → ∃ g, e = IllTyped g.
Proof.
  destruct v as [| | | |vs|]; simpl; try (intros [= <-]; eauto).
  intros Hc. apply comprehension_Raise in Hc as (y & _ & Hy).
  destruct y; simpl in Hy; simplify_eq; eauto.
Qed.

(** What [from_dict] can raise, in short. *)
Lemma from_dict_Raise_kind (data : dict) (e : exn) :
  from_dict data = Raise e → (∃ k, e = KeyError k) ∨ (∃ f, e = IllTyped f).
Proof.
  rewrite from_dict_unfold. unfold getitem, call_init.
  repeat (match goal with
          | |- context [data !! ?k] =>
              lazymatch k with
              | "type" => fail
              | _ => destruct (data !! k); cbn; [|intros [= <-]; eauto]
              end
          end).
  repeat (match goal with
          | |- context [as_str ?f ?v ≫= _] =>
              destruct v; cbn; try (intros [= <-]; eauto)
          | |- context [as_int ?f ?v ≫= _] =>
              destruct v; cbn; try (intros [= <-]; eauto)
          end).
  destruct (tag_attr _) as [[key mk]|]; cbn.
  - destruct (get data key (VStr "")); cbn; try (intros [= <-]; eauto).
    destruct (as_str_list _ _) eqn:Hl; cbn; [discriminate|].
    intros [= <-]. right. eapply as_str_list_Raise, Hl.
  - destruct (as_str_list _ _) eqn:Hl; cbn; [discriminate|].
    intros [= <-]. right. eapply as_str_list_Raise, Hl.
Qed.

(** The only exception that [from_dict] raises is [KeyError], and its key
    is the first of title, instructor, start_date, end_date, max_students
    that the record lacks; a record with all five never raises (it is
    accepted, or left to the untyped corner of the model).  Neither the
    capacity nor the dates are looked at. *)
Theorem from_dict_raises (data : dict) (e : exn) :
  from_dict data = Raise e →
  (∃ pre k post,
     required_fields = pre ++ k :: post ∧
     Forall (λ j, is_Some (data !! j)) pre ∧
     data !! k = None ∧ e = KeyError k) ∨
  (∃ field, e = IllTyped field ∧
     Forall (λ j, is_Some (data !! j)) required_fields).
Proof.
  rewrite from_dict_unfold. unfold getitem, required_fields.
  destruct (data !! "title") as [t|] eqn:H1; cbn; last first.
  { intros [= <-]. left. exists [], "title", (tail required_fields).
    repeat split; [constructor | done]. }
  destruct (data !! "instructor") as [i|] eqn:H2; cbn; last first.
  { intros [= <-]. left.
    exists ["title"], "instructor", (drop 2 required_fields).
    repeat split; [repeat constructor; by rewrite ?H1 | done]. }
  destruct (data !! "start_date") as [s|] eqn:H3; cbn; last first.
  { intros [= <-]. left.
    exists ["title"; "instructor"], "start_date", (drop 3 required_fields).
    repeat split; [repeat constructor; by rewrite ?H1, ?H2 | done]. }
  destruct (data !! "end_date") as [d|] eqn:H4; cbn; last first.
  { intros [= <-]. left.
    exists ["title"; "instructor"; "start_date"], "end_date",
      (drop 4 required_fields).
    repeat split; [repeat constructor; by rewrite ?H1, ?H2, ?H3 | done]. }
  destruct (data !! "max_students") as [m|] eqn:H5; cbn; last first.
  { intros [= <-]. left.
    exists ["title"; "instructor"; "start_date"; "end_date"], "max_students", [].
    repeat split;
      [repeat constructor; by rewrite ?H1, ?H2, ?H3, ?H4 | done]. }
  intros Hraise. right.
  assert (Forall (λ j, is_Some (data !! j))
            ["title"; "instructor"; "start_date"; "end_date"; "max_students"])
    as Hall by (repeat constructor; by rewrite ?H1, ?H2, ?H3, ?H4, ?H5).
  assert (∃ field, e = IllTyped field) as [field ->]; [|by exists field].
  revert Hraise. unfold call_init.
  assert (∀ f v, (∃ x, as_str f v = Ok x) ∨ as_str f v = Raise (IllTyped f))
    as Hstr by (intros f []; simpl; eauto).
  assert (∀ f v, (∃ x, as_int f v = Ok x) ∨ as_int f v = Raise (IllTyped f))
    as Hint by (intros f []; simpl; eauto).
  assert (∀ f v x, as_str_list f v = Raise x → ∃ g, x = IllTyped g) as Hlist.
  { intros f v x. destruct v as [| | | |vs|]; simpl;
      try (intros [= <-]; eauto).
    intros Hc. apply comprehension_Raise in Hc as (y & _ & Hy).
    destruct y; simpl in Hy; simplify_eq; eauto. }
  destruct (Hstr "title" t) as [[? ->]| ->]; cbn; [|intros [= <-]; eauto].
  destruct (Hstr "instructor" i) as [[? ->]| ->]; cbn; [|intros [= <-]; eauto].
  destruct (Hstr "start_date" s) as [[? ->]| ->]; cbn; [|intros [= <-]; eauto].
  destruct (Hstr "end_date" d) as [[? ->]| ->]; cbn; [|intros [= <-]; eauto].
  destruct (Hint "max_students" m) as [[? ->]| ->]; cbn; [|intros [= <-]; eauto].
  destruct (tag_attr (data !! "type")) as [[key mk]|]; cbn.
  - destruct (Hstr key (get data key (VStr ""))) as [[? ->]| ->]; cbn;
      [|intros [= <-]; eauto].
    destruct (as_str_list _ _) eqn:Hl; cbn; [discriminate|].
    intros [= <-]. eapply Hlist, Hl.
  - destruct (as_str_list _ _) eqn:Hl; cbn; [discriminate|].
    intros [= <-]. eapply Hlist, Hl.
Qed.

Lemma from_dict_raises_witness :
  ∃ pre post,
    required_fields = pre ++ "end_date" :: post ∧
    from_dict incomplete_record = Raise (KeyError "end_date").
Proof.
  destruct (from_dict_raises incomplete_record (KeyError "end_date") eq_refl)
    as [(pre & k & post & Hreq & _ & _ & [= <-])|(f & [=] & _)].
  exists pre, post. split; [exact Hreq | reflexivity].
Defined.

(** [from_dict] depends on nothing but the keys it reads: two records
    that agree on the tag, the required fields, the attribute of the
    tagged subclass and the student list give the same result, whatever
    else they hold (such as the attribute of another subclass). *)
Theorem from_dict_read_keys (data data' : dict) :
  (∀ k, k ∈ read_keys data → data' !! k = data !! k) →
  from_dict data' = from_dict data.
Proof.
  intros Hagree. rewrite !from_dict_unfold.
  assert (data' !! "type" = data !! "type") as Htype
    by (apply Hagree; unfold read_keys; in_list).
  assert (∀ k, k ∈ required_fields → getitem data' k = getitem data k) as Hreq.
  { intros k Hk. unfold getitem. rewrite Hagree; [done|].
    unfold read_keys. right. apply elem_of_app. by left. }
  rewrite !Hreq by (unfold required_fields; in_list).
  assert (get data' "students" (VList []) = get data "students" (VList []))
    as ->.
  { unfold get. rewrite Hagree; [done|]. unfold read_keys.
    right. rewrite !elem_of_app. right. right. in_list. }
  rewrite Htype.
  assert (match tag_attr (data !! "type") with
          | Some (key, mk) => get data' key (VStr "") = get data key (VStr "")
          | None => True
          end) as Hattr.
  { unfold read_keys in Hagree.
    destruct (tag_attr (data !! "type")) as [[key mk]|]; [|done].
    unfold get. rewrite Hagree; [done|].
    right. rewrite !elem_of_app. right. left. in_list. }
  destruct (tag_attr (data !! "type")) as [[key mk]|]; [|done].
  by rewrite Hattr.
Qed.

Lemma from_dict_read_keys_witness :
  from_dict (<["software" := VInt 7]> (<["note" := VNone]> bare_programming_record)) =
  from_dict bare_programming_record.
Proof.
  apply (from_dict_read_keys bare_programming_record).
  intros k Hk.
  change (read_keys bare_programming_record)
    with ("type" :: required_fields ++ ["language"; "students"]) in Hk.
  unfold required_fields in Hk. cbn [app] in Hk.
  rewrite !elem_of_cons, elem_of_nil in Hk.
  destruct Hk as [->|[->|[->|[->|[->|[->|[->|[->|[]]]]]]]]]; reflexivity.
Defined.

(** Every course survives [to_dict] followed by [from_dict] in all but its
    discriminating attribute, which comes back as the empty string: the
    class, the five common attributes and the student list are those of
    the original, however many students it has, so a plain [Course] comes
    back unchanged and a second round trip changes nothing more. *)
Theorem round_trip_all_but_attr (c : Course) :
  ∃ c', from_dict (to_dict c) = Ok c' ∧
        cls c' = forget_attr (cls c) ∧
        class_name (cls c') = class_name (cls c) ∧
        title c' = title c ∧ instructor c' = instructor c ∧
        start_date c' = start_date c ∧ end_date c' = end_date c ∧
        max_students c' = max_students c ∧ students c' = students c ∧
        (cls c = BaseCourse → c' = c) ∧
        from_dict (to_dict c') = Ok c'.
Proof.
  exists (set_cls c (forget_attr (cls c))).
  split; [apply from_dict_to_dict|].
  repeat split.
  - by destruct (cls c).
  - intros Hbase. rewrite Hbase. by destruct c; simpl in *; subst.
  - rewrite from_dict_to_dict. by destruct c as [[] ? ? ? ? ? ?].
Qed.

(** ** Courses by title *)

Lemma filter_title_none (t : string) (l : list Course) :
  Forall (λ x, title x ≠ t) l → filter (λ x, title x = t) l = [].
Proof.
  induction 1 as [|x l Hx _ IH]; [done|].
  by rewrite filter_cons, decide_False.
Qed.

(** [find_course] returns the first of the courses with the title. *)
Lemma find_course_filter (p : Platform) (t : string) :
  find_course p t = head (filter (λ x, title x = t) (courses p)).
Proof.
  unfold find_course.
  destruct (first_index t (courses p) 0) as [j|] eqn:Hj.
  - destruct (first_index_Some _ _ _ _ Hj) as (l1 & c & l2 & -> & Ht & Hl1 & ->).
    simpl. rewrite list_lookup_middle by done.
    rewrite filter_app, (filter_title_none _ _ Hl1), filter_cons.
    by rewrite decide_True.
  - apply first_index_None in Hj. by rewrite filter_title_none.
Qed.

(** What [remove_course] does to the courses with a given title. *)
Lemma remove_course_filter (p : Platform) (t t' : string) :
  filter (λ x, title x = t') (courses (remove_course p t).2) =
    if decide (t' = t) then tail (filter (λ x, title x = t') (courses p))
    else filter (λ x, title x = t') (courses p).
Proof.
  unfold remove_course.
  destruct (first_index t (courses p) 0) as [j|] eqn:Hj; cbn [snd].
  - destruct (first_index_Some _ _ _ _ Hj) as (l1 & c & l2 & Hcs & Ht & Hl1 & ->).
    cbn [courses set_courses]. rewrite Hcs. simpl. rewrite delete_middle.
    rewrite !filter_app, filter_cons.
    destruct (decide (t' = t)) as [->|Hne].
    + rewrite (filter_title_none _ _ Hl1), decide_True by done. done.
    + rewrite decide_False by congruence. done.
  - apply first_index_None in Hj.
    destruct (decide (t' = t)) as [->|]; [|done].
    by rewrite filter_title_none.
Qed.

(** Adding and looking up: [find_course] after [add_course] returns the
    course that was already found under the title, and the new course
    only when there was none; removing the title of a course just added
    to a platform that did not have it gives the platform back. *)
Theorem add_course_find_remove (p : Platform) (c : Course) (t : string) :
  find_course (add_course p c) t =
    match find_course p t with
    | Some c' => Some c'
    | None => if decide (title c = t) then Some c else None
    end ∧
  (find_course p (title c) = None →
     remove_course (add_course p c) (title c) = (true, p)).
Proof.
  split.
  - rewrite !find_course_filter. cbn [add_course set_courses courses].
    rewrite filter_app, filter_cons, filter_nil.
    destruct (filter _ (courses p)); [|done].
    simpl. by destruct (decide (title c = t)).
  - unfold find_course, remove_course.
    destruct (first_index (title c) (courses p) 0) as [j|] eqn:Hj.
    { destruct (first_index_Some _ _ _ _ Hj) as (l1 & c' & l2 & -> & _ & _ & ->).
      simpl. by rewrite list_lookup_middle. }
    intros _. apply first_index_None in Hj.
    cbn [add_course set_courses courses].
    destruct (first_index (title c) (courses p ++ [c]) 0) as [i|] eqn:Hi.
    + destruct (first_index_Some _ _ _ _ Hi) as (l1 & c' & l2 & Hsplit & Ht & Hl1 & ->).
      assert (l1 = courses p ∧ c' = c ∧ l2 = []) as (-> & -> & ->).
      { rewrite Forall_forall in Hj.
        destruct l2 as [|x l2 _] using rev_ind.
        - apply app_inj_tail in Hsplit as [-> ->]. done.
        - rewrite app_comm_cons, app_assoc in Hsplit.
          apply app_inj_tail in Hsplit as [Hp _].
          exfalso. apply (Hj c'); [|done]. rewrite Hp.
          apply elem_of_app. right. by left. }
      simpl. rewrite delete_middle, app_nil_r. by destruct p.
    + apply first_index_None in Hi. rewrite Forall_app in Hi.
      destruct Hi as [_ Hc]. by inversion Hc.
Qed.

Lemma add_course_find_remove_witness :
  find_course (add_course ranking_platform (course_with "Algebra" 1)) "Algebra" =
    Some (course_with "Algebra" 10) ∧
  remove_course (add_course ranking_platform (course_with "Zoology" 1))
    "Zoology" = (true, ranking_platform).
Proof.
  destruct (add_course_find_remove ranking_platform
              (course_with "Algebra" 1) "Algebra") as [Hfind _].
  destruct (add_course_find_remove ranking_platform
              (course_with "Zoology" 1) "Zoology") as [_ Hremove].
  split.
  - rewrite Hfind. vm_compute. reflexivity.
  - apply Hremove. vm_compute. reflexivity.
Defined.

(** [remove_course] and [find_course] agree on what is there, and a
    removal touches one course only: lookups of other titles are as
    before, and a lookup of the removed title now finds the next course
    that carries it, if the platform held the title more than once. *)
Theorem remove_course_find (p : Platform) (t t' : string) :
  ((remove_course p t).1 = true ↔ is_Some (find_course p t)) ∧
  (t' ≠ t → find_course (remove_course p t).2 t' = find_course p t') ∧
  find_course (remove_course p t).2 t =
    filter (λ x, title x = t) (courses p) !! 1%nat.
Proof.
  split; [|split].
  - unfold remove_course, find_course.
    destruct (first_index t (courses p) 0) as [j|] eqn:Hj; cbn.
    + destruct (first_index_Some _ _ _ _ Hj) as (l1 & c & l2 & -> & _ & _ & ->).
      simpl. rewrite list_lookup_middle by done. split; eauto.
    + split; [done | by intros []].
  - intros Hne. rewrite !find_course_filter, remove_course_filter.
    by rewrite decide_False.
  - rewrite find_course_filter, remove_course_filter, decide_True by done.
    by destruct (filter _ (courses p)) as [|? []].
Qed.

Lemma remove_course_find_witness :
  find_course
    (remove_course (add_course ranking_platform (course_with "Algebra" 1))
       "Algebra").2 "Botany" = Some (course_with "Botany" 2).
Proof.
  destruct (remove_course_find
              (add_course ranking_platform (course_with "Algebra" 1))
              "Algebra" "Botany") as (_ & Hother & _).
  rewrite Hother; [reflexivity | discriminate].
Defined.

(** ** The most popular courses *)

(** Whatever n is, the courses that [get_most_popular] returns are courses
    of the platform, in descending order of enrolment, and every course
    it leaves out has at most as many students as each course it
    returns. *)
Theorem get_most_popular_top (p : Platform) (n : option Z) :
  let key := λ c : Course, len (students c) in
  ∃ rest,
    get_most_popular p n ++ rest ≡ₚ courses p ∧
    descending key (get_most_popular p n) ∧
    ∀ a b, a ∈ get_most_popular p n → b ∈ rest → key b ≤ key a.
Proof.
  intros key. unfold get_most_popular. fold key.
  set (ranking := sorted_desc key (courses p)).
  assert (∃ m, slice_to ranking (default 3 n) = take m ranking) as [m ->].
  { unfold slice_to. destruct (_ <? 0); eauto. }
  exists (drop m ranking).
  pose proof (sorted_desc_descending key (courses p)) as Hsorted.
  fold ranking in Hsorted. unfold descending in *.
  rewrite <- (take_drop m ranking) in Hsorted.
  split; [|split].
  - rewrite take_drop. apply sorted_desc_perm.
  - by apply StronglySorted_app_1_l in Hsorted.
  - intros a b Ha Hb.
    apply (StronglySorted_app_1_elem_of _ _ _ _ _ Hsorted Ha Hb).
Qed.

(** ** Saving and loading *)

(** Saving a platform and loading the file into any platform, with a
    decoder that reads back the document the encoder was given, replaces
    the courses of the loading platform by those of the saved one, in
    order, each with its class, common attributes and students but with
    the discriminating attribute empty; nothing is printed and no other
    file is touched. *)
Theorem save_then_load (json_load : string → option value)
    (json_dump : value → string) (p q : Platform) (filename : string)
    (w : world) :
  let doc := VList ((λ c, VDict (to_dict c)) <$> courses p) in
  let w' := save_to_json json_dump p filename w in
  json_load (json_dump doc) = Some doc →
  load_from_json json_load q filename w' =
    (Ok (),
     mkPlatform (name q)
       ((λ c, set_cls c (forget_attr (cls c))) <$> courses p),
     w') ∧
  stdout w' = stdout w ∧
  (∀ other, other ≠ filename → files w' !! other = files w !! other).
Proof.
  intros doc w' Hround. split; [|split].
  - by apply load_after_save.
  - reflexivity.
  - intros other Hne. unfold w', save_to_json. cbn [files].
    by rewrite lookup_insert_ne.
Qed.

Lemma save_then_load_witness :
  (load_from_json token_json_load (Platform_init "NewSuperLearn")
     "platform_data.json"
     (save_to_json token_json_dump main_platform "platform_data.json"
        sample_world)).1.2 =
  mkPlatform "NewSuperLearn"
    [set_cls enrolled_python_course (ProgrammingCourse "");
     set_cls design_course (DesignCourse "")].
Proof.
  destruct (save_then_load token_json_load token_json_dump main_platform
              (Platform_init "NewSuperLearn") "platform_data.json"
              sample_world eq_refl) as [Hload _].
  rewrite Hload. reflexivity.
Defined.

(** [load_from_json] catches two exceptions only.  When the document
    decodes to a list and one of its records is refused by [from_dict],
    after any number of good records, the exception of that record (a
    [KeyError] for a missing required field) reaches the caller, nothing
    is printed, and the platform keeps all its courses: no record of the
    document is loaded. *)
Theorem load_from_json_bad_record (json_load : string → option value)
    (p : Platform) (filename text : string) (w : world)
    (good : list value) (cs : list Course) (bad : dict) (rest : list value)
    (e : exn) :
  files w !! filename = Some text →
  json_load text = Some (VList (good ++ VDict bad :: rest)) →
  comprehension from_dict_item good = Ok cs →
  from_dict bad = Raise e →
  load_from_json json_load p filename w = (Raise e, p, w).
Proof.
  intros Hfile Hdoc Hgood Hbad.
  assert (comprehension from_dict_item (good ++ VDict bad :: rest) = Raise e)
    as Hall.
  { clear Hdoc. revert cs Hgood.
    induction good as [|x good IH]; intros cs Hgood.
    - cbn. by rewrite Hbad.
    - cbn in Hgood |- *. destruct (from_dict_item x); [|discriminate].
      cbn in Hgood |- *.
      destruct (comprehension from_dict_item good) as [cs'|] eqn:Hg;
        [|discriminate].
      by rewrite (IH cs' eq_refl). }
  unfold load_from_json, read_text, decode.
  rewrite Hfile, bind_Ok, Hdoc, bind_Ok. cbn [iterate].
  rewrite bind_Ok, Hall.
  apply from_dict_Raise_kind in Hbad as [[k ->]|[f ->]];
    reflexivity.
Qed.

Lemma load_from_json_bad_record_witness :
  load_from_json odd_json_load ranking_platform "two.json" odd_world =
    (Raise (KeyError "end_date"), ranking_platform, odd_world).
Proof.
  eapply (load_from_json_bad_record odd_json_load ranking_platform
            "two.json" "two" odd_world [VDict bare_programming_record]);
    reflexivity.
Defined.

(** A document that decodes but is not a list: an empty object or an empty
    string empties the platform without a word, a number, a boolean or
    null raises [TypeError], and a list with an item that is not an
    object raises [AttributeError] once the items before it have been
    accepted; in the last two cases the platform is unchanged. *)
Theorem load_from_json_not_records (json_load : string → option value)
    (p : Platform) (filename text : string) (w : world) (doc : value) :
  files w !! filename = Some text →
  json_load text = Some doc →
  (doc = VDict ∅ ∨ doc = VStr "" →
     load_from_json json_load p filename w = (Ok (), set_courses p [], w)) ∧
  (doc = VNone ∨ (∃ b, doc = VBool b) ∨ (∃ n, doc = VInt n) →
     load_from_json json_load p filename w = (Raise TypeError, p, w)) ∧
  (∀ good cs item rest,
     doc = VList (good ++ item :: rest) →
     comprehension from_dict_item good = Ok cs →
     (∀ d, item ≠ VDict d) →
     load_from_json json_load p filename w = (Raise AttributeError, p, w)).
Proof.
  intros Hfile Hdoc. unfold load_from_json, read_text, decode.
  rewrite Hfile, bind_Ok, Hdoc, bind_Ok. split; [|split].
  - intros [->| ->]; cbn [iterate].
    + by rewrite map_to_list_empty.
    + reflexivity.
  - intros [->|[[b ->]|[n ->]]]; reflexivity.
  - intros good cs item rest -> Hgood Hitem. cbn [iterate]. rewrite bind_Ok.
    assert (comprehension from_dict_item (good ++ item :: rest) =
            Raise AttributeError) as ->; [|done].
    clear Hdoc. revert cs Hgood.
    induction good as [|x good IH]; intros cs Hgood.
    + cbn. destruct item; try reflexivity. by destruct (Hitem d).
    + cbn in Hgood |- *. destruct (from_dict_item x); [|discriminate].
      cbn in Hgood |- *.
      destruct (comprehension from_dict_item good) as [cs'|] eqn:Hg;
        [|discriminate].
      by rewrite (IH cs' eq_refl).
Qed.

Lemma load_from_json_not_records_witness :
  load_from_json odd_json_load ranking_platform "empty.json" odd_world =
    (Ok (), mkPlatform "SuperLearn" [], odd_world) ∧
  load_from_json odd_json_load ranking_platform "seven.json" odd_world =
    (Raise TypeError, ranking_platform, odd_world) ∧
  load_from_json odd_json_load ranking_platform "list.json" odd_world =
    (Raise AttributeError, ranking_platform, odd_world).
Proof.
  split; [|split].
  - apply (load_from_json_not_records odd_json_load ranking_platform
             "empty.json" "{}" odd_world (VDict ∅)); auto.
  - apply (load_from_json_not_records odd_json_load ranking_platform
             "seven.json" "7" odd_world (VInt 7)); eauto.
  - eapply (load_from_json_not_records odd_json_load ranking_platform
              "list.json" "[7]" odd_world (VList [VInt 7]) eq_refl eq_refl)
      with (good := []) (item := VInt 7) (rest := []); [reflexivity..|].
    discriminate.
Defined.

Lemma get_most_popular_top_witness :
  len (students (course_with "Botany" 2)) ≤
  len (students (course_with "Chemistry" 15)).
Proof.
  destruct (get_most_popular_top ranking_platform (Some 2))
    as (rest & Hperm & _ & Htop).
  assert (get_most_popular ranking_platform (Some 2) =
          [course_with "Chemistry" 15; course_with "Algebra" 10]) as Htwo
    by (vm_compute; reflexivity).
  assert (courses ranking_platform =
          [course_with "Algebra" 10; course_with "Botany" 2;
           course_with "Chemistry" 15; course_with "Drawing" 10]) as Hall
    by reflexivity.
  rewrite Htwo in Hperm, Htop. rewrite Hall in Hperm.
  apply (Htop (course_with "Chemistry" 15) (course_with "Botany" 2)).
  - by left.
  - assert (course_with "Botany" 2 ∈
            [course_with "Algebra" 10; course_with "Botany" 2;
             course_with "Chemistry" 15; course_with "Drawing" 10]) as Hin
      by (right; by left).
    rewrite <- Hperm in Hin.
    change ([course_with "Chemistry" 15; course_with "Algebra" 10] ++ rest)
      with (course_with "Chemistry" 15 :: course_with "Algebra" 10 :: rest)
      in Hin.
    rewrite !elem_of_cons in Hin.
    destruct Hin as [Heq|[Heq|Hin]]; [| |exact Hin];
      apply (f_equal title) in Heq; vm_compute in Heq; discriminate Heq.
Defined.

(** ** Who shares a student list *)

Lemma list_at_insert (σ : Shared.store) (a b : nat) (l : list string) :
  Shared.list_at (<[a := l]> σ) b =
    if decide (a = b) then l else Shared.list_at σ b.
Proof.
  unfold Shared.list_at. destruct (decide (a = b)) as [->|Hne].
  - by rewrite lookup_insert_eq.
  - by rewrite lookup_insert_ne.
Qed.

Lemma alloc_fresh (l : list string) (σ : Shared.store) (a : nat) :
  is_Some (σ !! a) → (Shared.alloc l σ).1 ≠ a.
Proof.
  intros Ha Heq. apply elem_of_dom in Ha. rewrite <- Heq in Ha.
  by apply is_fresh in Ha.
Qed.

Lemma alloc_list_at (l : list string) (σ : Shared.store) :
  Shared.list_at (Shared.alloc l σ).2 (Shared.alloc l σ).1 = l.
Proof. unfold Shared.alloc. cbn. by rewrite list_at_insert, decide_True. Qed.

Lemma alloc_frame (l : list string) (σ : Shared.store) (a : nat) :
  is_Some (σ !! a) →
  Shared.list_at (Shared.alloc l σ).2 a = Shared.list_at σ a.
Proof.
  intros Ha. pose proof (alloc_fresh l σ a Ha) as Hne.
  unfold Shared.alloc in *. cbn in *. by rewrite list_at_insert, decide_False.
Qed.

Lemma shared_add_student_frame (o : Shared.CourseObj) (name : string)
    (σ : Shared.store) (o' : Shared.CourseObj) :
  Shared.students_at o' ≠ Shared.students_at o →
  Shared.view (Shared.add_student o name σ).2 o' = Shared.view σ o'.
Proof.
  intros Hne. unfold Shared.add_student, Shared.view.
  destruct (len _ >=? _); cbn [snd]; [done|].
  by rewrite list_at_insert, decide_False.
Qed.

(** [add_student] on an object does to its view what the value-level
    [add_student] does to the course, with the same outcome; every object
    holding the same list sees the new student, and no other object
    changes. *)
Theorem shared_add_student (o : Shared.CourseObj) (name : string)
    (σ : Shared.store) :
  let r := (Shared.add_student o name σ).1 in
  let σ' := (Shared.add_student o name σ).2 in
  r = (add_student (Shared.view σ o) name).1 ∧
  Shared.view σ' o = (add_student (Shared.view σ o) name).2 ∧
  (∀ o', Shared.students_at o' = Shared.students_at o →
         students (Shared.view σ' o') = students (Shared.view σ' o)) ∧
  (∀ o', Shared.students_at o' ≠ Shared.students_at o →
         Shared.view σ' o' = Shared.view σ o').
Proof.
  unfold Shared.add_student, add_student, Shared.view.
  cbn [students max_students title set_students].
  destruct (len (Shared.list_at σ (Shared.students_at o)) >=?
            max_students (Shared.attrs o)); cbn [fst snd].
  - repeat split; try done. by intros o' ->.
  - rewrite list_at_insert, decide_True by done.
    repeat split.
    + intros o' Ho'. cbn. by rewrite list_at_insert, decide_True.
    + intros o' Ho'. by rewrite list_at_insert, decide_False.
Qed.

Lemma from_dict_shared_attrs (o : Shared.CourseObj) :
  from_dict (omap Shared.plain (delete "students" (Shared.to_dict o))) =
    Ok (set_students
          (set_cls (Shared.attrs o) (forget_attr (cls (Shared.attrs o)))) []).
Proof.
  set (c := Shared.attrs o).
  rewrite (from_dict_typed _ (title c) (instructor c) (start_date c)
             (end_date c) (max_students c) []);
    [|repeat split; reflexivity | reflexivity].
  replace (omap Shared.plain (delete "students" (Shared.to_dict o)) !! "type")
    with (Some (VStr (class_name (cls c)))) by reflexivity.
  unfold get.
  replace (omap Shared.plain (delete "students" (Shared.to_dict o)) !! "language")
    with (@None value) by reflexivity.
  replace (omap Shared.plain (delete "students" (Shared.to_dict o)) !! "software")
    with (@None value) by reflexivity.
  replace (omap Shared.plain (delete "students" (Shared.to_dict o)) !! "field")
    with (@None value) by reflexivity.
  by destruct (cls c).
Qed.

(** The course rebuilt from [to_dict] of an object holds the very list of
    that object, and no new list is made: a student enrolled through the
    rebuilt course is enrolled in the original as well, and the two fill
    one and the same capacity. *)
Theorem shared_round_trip (o : Shared.CourseObj) (σ : Shared.store) :
  ∃ o', Shared.from_dict (Shared.to_dict o) σ = (Ok o', σ) ∧
        Shared.students_at o' = Shared.students_at o ∧
        students (Shared.view σ o') = students (Shared.view σ o) ∧
        ∀ name,
          (Shared.add_student o' name σ).1 =
            (add_student (Shared.view σ o) name).1 ∧
          Shared.view (Shared.add_student o' name σ).2 o =
            (add_student (Shared.view σ o) name).2.
Proof.
  unfold Shared.from_dict. rewrite from_dict_shared_attrs.
  replace (Shared.to_dict o !! "students")
    with (Some (Shared.ListAt (Shared.students_at o))) by reflexivity.
  eexists. split; [reflexivity|]. split; [reflexivity|].
  split; [reflexivity|]. intros name.
  unfold Shared.add_student, add_student, Shared.view.
  cbn [students max_students title set_students set_cls Shared.attrs
       Shared.students_at].
  destruct (len (Shared.list_at σ (Shared.students_at o)) >=?
            max_students (Shared.attrs o)); cbn [fst snd]; [done|].
  by rewrite list_at_insert, decide_True.
Qed.

(** What is not shared: the list handed out by the [students] property is
    a copy, so appending to it leaves the course as it was; and a course
    built by [from_dict] from a record without a student list gets a list
    of its own, so enrolling in it changes no course that existed
    before. *)
Theorem shared_copies (o : Shared.CourseObj) (σ : Shared.store)
    (name : string) :
  is_Some (σ !! Shared.students_at o) →
  (let '(a, σ1) := Shared.students o σ in
   Shared.list_at σ1 a = students (Shared.view σ o) ∧
   a ≠ Shared.students_at o ∧
   Shared.view (Shared.append a name σ1) o = Shared.view σ o) ∧
  (∀ data o' σ1,
     data !! "students" = None →
     Shared.from_dict data σ = (Ok o', σ1) →
     Shared.students_at o' ≠ Shared.students_at o ∧
     students (Shared.view σ1 o') = [] ∧
     Shared.view (Shared.add_student o' name σ1).2 o = Shared.view σ o).
Proof.
  intros Halloc. split.
  - unfold Shared.students.
    pose proof (alloc_fresh (Shared.list_at σ (Shared.students_at o)) σ _ Halloc)
      as Hne.
    pose proof (alloc_list_at (Shared.list_at σ (Shared.students_at o)) σ)
      as Hcopy.
    pose proof (alloc_frame (Shared.list_at σ (Shared.students_at o)) σ _ Halloc)
      as Hframe.
    destruct (Shared.alloc _ σ) as [a σ1]. cbn [fst snd] in *.
    split; [exact Hcopy|]. split; [exact Hne|].
    unfold Shared.append, Shared.view.
    by rewrite list_at_insert, decide_False, Hframe.
  - intros data o' σ1 Hnone. unfold Shared.from_dict. rewrite Hnone.
    destruct (from_dict _) as [c|e]; [|discriminate].
    pose proof (alloc_fresh [] σ _ Halloc) as Hne.
    pose proof (alloc_list_at [] σ) as Hnew.
    pose proof (alloc_frame [] σ _ Halloc) as Hframe.
    destruct (Shared.alloc [] σ) as [a σ']. cbn [fst snd] in *.
    intros [= <- <-]. cbn [Shared.students_at].
    split; [exact Hne|]. split; [exact Hnew|].
    rewrite (shared_add_student_frame (Shared.mkObj c a) name σ' o)
      by (cbn; congruence).
    unfold Shared.view. by rewrite Hframe.
Qed.

Lemma shared_add_student_witness :
  let σ' := (Shared.add_student python_object "Sidorov Petr" two_objects).2 in
  students (Shared.view σ' python_alias) = ["Sidorov Petr"] ∧
  Shared.view σ' design_object = Shared.view two_objects design_object.
Proof.
  intros σ'. subst σ'.
  destruct (shared_add_student python_object "Sidorov Petr" two_objects)
    as (_ & _ & Hsame & Hother).
  split.
  - rewrite (Hsame python_alias eq_refl). reflexivity.
  - apply Hother. vm_compute. discriminate.
Defined.

Lemma shared_copies_witness :
  (Shared.students python_object two_objects).1 ≠
    Shared.students_at python_object ∧
  Shared.view
    (Shared.append (Shared.students python_object two_objects).1 "Guest"
       (Shared.students python_object two_objects).2) python_object =
  Shared.view two_objects python_object.
Proof.
  assert (is_Some (two_objects !! Shared.students_at python_object)) as Halloc
    by (vm_compute; eauto).
  destruct (shared_copies python_object two_objects "Guest" Halloc)
    as [Hcopy _].
  destruct (Shared.students python_object two_objects) as [a σ1].
  destruct Hcopy as (_ & Hne & Hview). split; [exact Hne | exact Hview].
Defined.
